(** * The bilibili videos widget of glance_cn

    A shallow embedding of the widget's data acquisition code
    (package glance: getBilibiliFeedURL, sortByView,
    fetchBilibiliClassifyUploads, initialize, update) and the properties
    of its fetch-and-aggregate pipeline.

    Layout: the pieces of the Go runtime the code calls (errors, fmt,
    time, sort, slices), the world the code runs in (clock, network, log),
    the widget code itself (the version with view counts, then what the
    other version of the file changes), the vocabulary of the statements
    and sample inputs, and then the lemmas and theorems. *)

From Stdlib Require Import ZArith List String Ascii Bool Lia.
From Stdlib Require Import Permutation Sorted.
From Stdlib Require Import Floats Uint63.
From Stdlib Require Import DecimalString.
Import ListNotations.

Local Open Scope string_scope.
Local Open Scope list_scope.
Local Open Scope Z_scope.

(* ================================================================== *)
(** * Go runtime: errors *)

(** Go [error] values as this package builds and inspects them.  The two
    sentinels are package-level variables of package glance, declared
    outside the files at hand; [errorString]
    stands for any error of a collaborator (transport, status, decoding);
    [wrapError] is the value of [fmt.Errorf] called with a format that
    starts with the verb %w and has one more operand: it keeps the format
    and the operands, and unwraps to the first one. *)
Inductive error : Type :=
| errNoContent
| errPartialContent
| errorString (text : string)
| wrapError (format : string) (wrapped : error) (operand : fmtOperand)
with fmtOperand : Type :=
| OperandInt (n : Z)
| OperandErr (e : error).

Definition fmt_Errorf (format : string) (wrapped : error) (operand : fmtOperand) : error :=
  wrapError format wrapped operand.

(** Comparable errors: a sentinel is equal to itself only.  Values of
    [errors.New] and [fmt.Errorf] are pointers, equal to no sentinel. *)
Definition error_is_sentinel (err target : error) : bool :=
  match err, target with
  | errNoContent, errNoContent => true
  | errPartialContent, errPartialContent => true
  | _, _ => false
  end.

(** [errors.Is(err, target)] for a sentinel [target]: walks the chain of
    wrapped errors. *)
Fixpoint errors_Is (err target : error) : bool :=
  error_is_sentinel err target ||
  match err with
  | wrapError _ wrapped _ => errors_Is wrapped target
  | _ => false
  end.

(* ================================================================== *)
(** * Go runtime: fmt *)

(** The verb %d on an integer: decimal digits, a minus sign for a negative
    number. *)
Definition formatInt (n : Z) : string :=
  NilZero.string_of_int (Z.to_int n).

Inductive fmtArg : Type :=
| ArgInt (n : Z)
| ArgString (s : string).

Definition formatArg (a : fmtArg) : string :=
  match a with
  | ArgInt n => formatInt n
  | ArgString s => s
  end.

(** [fmt.Sprintf] for formats whose verbs are %d (on integers) and %s (on
    strings): every verb consumes the next operand. *)
Fixpoint Sprintf (format : string) (args : list fmtArg) : string :=
  match format with
  | EmptyString => EmptyString
  | String c rest =>
      if Ascii.eqb c "%" then
        match rest with
        | EmptyString => "%!(NOVERB)"
        | String verb rest' =>
            match args with
            | a :: args' => (formatArg a ++ Sprintf rest' args')%string
            | [] => String "%" (String "!" (String verb ("(MISSING)" ++ Sprintf rest' [])%string))
            end
        end
      else String c (Sprintf rest args)
  end.

(* ================================================================== *)
(** * Go runtime: time *)

Inductive Location : Type := UTCLocation | LocalLocation.

(** A [time.Time]: an instant, in nanoseconds since the Unix epoch, and the
    location it is presented in. *)
Record time_Time : Type := mkTime { unixNano : Z; location : Location }.

(** [time.Duration]: int64 nanoseconds. *)
Definition Duration : Type := Z.

Definition Nanosecond : Duration := 1.
Definition Second : Duration := 1000000000.
Definition Hour : Duration := 3600 * Second.

Definition minDuration : Duration := - 2 ^ 63.
Definition maxDuration : Duration := 2 ^ 63 - 1.

(** [t.Unix()]: whole seconds since the epoch (the nanosecond part of a
    Time is never negative, so this is the floor). *)
Definition Unix (t : time_Time) : Z := unixNano t / Second.

(** [t.UTC()]: the same instant, presented in UTC. *)
Definition UTC (t : time_Time) : time_Time := mkTime (unixNano t) UTCLocation.

(** [t.After(u)]: whether the instant of [t] is later. *)
Definition After (t u : time_Time) : bool := unixNano t >? unixNano u.

(** [t.Sub(u)]: the elapsed time between two instants, saturated to the
    range of a Duration. *)
Definition Sub (t u : time_Time) : Duration :=
  let d := unixNano t - unixNano u in
  if d <? minDuration then minDuration
  else if maxDuration <? d then maxDuration
  else d.

Definition isLeap (year : Z) : bool :=
  (year mod 4 =? 0) && (negb (year mod 100 =? 0) || (year mod 400 =? 0)).

(** Days from 1970-01-01 to the first day of [year]. *)
Definition daysBeforeYear (year : Z) : Z :=
  let y := year - 1 in
  365 * (year - 1970) + (y / 4 - y / 100 + y / 400) - (1969 / 4 - 1969 / 100 + 1969 / 400).

(** Days from the first day of a year to the first day of [month]
    (January is 1). *)
Definition daysBeforeMonth (year month : Z) : Z :=
  let cumulative := nth (Z.to_nat (month - 1))
                        [0; 31; 59; 90; 120; 151; 181; 212; 243; 273; 304; 334] 0 in
  if (2 <? month) && isLeap year then cumulative + 1 else cumulative.

Definition March : Z := 3.

(** [time.Date(year, month, day, hour, min, sec, nsec, time.UTC)] for a
    date given in range. *)
Definition time_Date (year month day hour min sec nsec : Z) : time_Time :=
  let days := daysBeforeYear year + daysBeforeMonth year month + (day - 1) in
  mkTime ((((days * 24 + hour) * 60 + min) * 60 + sec) * Second + nsec) UTCLocation.

(* ------------------------------------------------------------------ *)
(** ** float64, as [Duration.Hours] and the conversion to int use it *)

(** [float64(n)] for an integer: exact below 2^53. *)
Definition float64_of_int (n : Z) : float :=
  if n <? 0 then PrimFloat.opp (PrimFloat.of_uint63 (Uint63.of_Z (- n)))
  else PrimFloat.of_uint63 (Uint63.of_Z n).

(** [int(f)] for a float64: truncation toward zero; what is not a number
    of the int64 range gives the smallest int64, as on amd64. *)
Definition int_of_float64 (f : float) : Z :=
  match Prim2SF f with
  | S754_zero _ => 0
  | S754_finite negative m e =>
      let magnitude := if 0 <=? e then Z.pos m * 2 ^ e else Z.pos m / 2 ^ (- e) in
      let n := if negative then - magnitude else magnitude in
      if (minDuration <=? n) && (n <=? maxDuration) then n else minDuration
  | _ => minDuration
  end.

(** [d.Hours()]: the whole hours, plus the rest of the hour as a fraction,
    both as float64. *)
Definition Hours (d : Duration) : float :=
  let hour := Z.quot d Hour in
  let nsec := Z.rem d Hour in
  PrimFloat.add (float64_of_int hour)
                (PrimFloat.div (float64_of_int nsec) (float64_of_int (60 * 60 * 1000000000))).

(* ================================================================== *)
(** * Go runtime: sort *)

(** What [sort.Slice] asks of its [less]: a strict weak ordering
    (irreflexive, transitive, and with a transitive "neither is less"). *)
Record lessOrdering {A : Type} (less : A -> A -> bool) : Prop := {
  less_irrefl : forall x, less x x = false;
  less_trans : forall x y z, less x y = true -> less y z = true -> less x z = true;
  less_incomparable_trans :
    forall x y z, less x y = false -> less y z = false -> less x z = false
}.

(** A slice is sorted for [less] when no later element is less than an
    earlier one. *)
Definition sortedFor {A : Type} (less : A -> A -> bool) (v : list A) : Prop :=
  StronglySorted (fun earlier later => less later earlier = false) v.

(** [sort.Slice(x, less)] belongs to the Go library and is not stable; the
    code relies on its contract only: it permutes the slice, and the
    result is sorted when [less] is a strict weak ordering. *)
Class SliceSort : Type := {
  sort_Slice : forall {A : Type}, list A -> (A -> A -> bool) -> list A;
  sort_Slice_permutes :
    forall (A : Type) (v : list A) less, Permutation v (sort_Slice v less);
  sort_Slice_sorts :
    forall (A : Type) (v : list A) less, lessOrdering less -> sortedFor less (sort_Slice v less)
}.

(** One sort with this contract, to run the code on concrete inputs:
    insertion after the last element that is not greater. *)
Fixpoint insertBy {A : Type} (less : A -> A -> bool) (x : A) (v : list A) : list A :=
  match v with
  | [] => [x]
  | y :: rest => if less x y then x :: y :: rest else y :: insertBy less x rest
  end.

Fixpoint insertionSort {A : Type} (v : list A) (less : A -> A -> bool) : list A :=
  match v with
  | [] => []
  | x :: rest => insertBy less x (insertionSort rest less)
  end.

(* ================================================================== *)
(** * The data of the widget *)

(** The decoded feed payload, [bilibiliFeedResponseJson]. *)
Module Json.
Record owner : Type := mkOwner { Mid : Z; Name : string }.
Record stat : Type := mkStat { View : Z; Danmaku : Z }.
Record entry : Type := mkEntry {
  Pic : string;
  Title : string;
  Bvid : string;
  Owner : owner;
  Stats : stat
}.
Record data : Type := mkData { List : list entry }.
End Json.

Record bilibiliFeedResponseJson : Type := mkResponse { Data : Json.data }.

(** The zero value of the payload. *)
Definition emptyResponse : bilibiliFeedResponseJson := mkResponse (Json.mkData []).

Record videoBilibili : Type := mkVideo {
  ThumbnailUrl : string;
  Title : string;
  Url : string;
  Author : string;
  AuthorUrl : string;
  Views : Z;
  Danmaku : Z;
  Desc : string
}.

Definition bilibiliVideoList : Type := list videoBilibili.

(** An [http.Request], as far as this code sets it. *)
Record Request : Type := mkRequest {
  Method : string;
  URL : string;
  Header : list (string * string)
}.

(** [http.NewRequest(method, url, nil)]; the code drops its error, and the
    targets it builds always parse. *)
Definition http_NewRequest (method url : string) : Request :=
  mkRequest method url [].

(** [request.Header.Set(key, value)]: replaces the values of [key] (the
    code gives its keys in canonical form). *)
Definition Header_Set (key value : string) (request : Request) : Request :=
  mkRequest (Method request) (URL request)
            (filter (fun kv => negb (String.eqb (fst kv) key)) (Header request) ++ [(key, value)]).

(** One record of [slog.Error] with its attributes "classify" and "error". *)
Record logRecord : Type := mkLog {
  logMessage : string;
  logClassify : string;
  logError : error
}.

(* ================================================================== *)
(** * The world the code runs in *)

(** The clock gives the instant of each successive reading of
    [time.Now()]; the network gives, for the task at each index of a job,
    what [decodeJsonFromRequestTask] returns for the request; the pool may
    report an error of its own; the log collects the diagnostics. *)
Record World : Type := mkWorld {
  clock : nat -> Z;
  reads : nat;
  taskOutcome : nat -> Request -> bilibiliFeedResponseJson + error;
  poolError : option error;
  logged : list logRecord
}.

(** A call either returns in a new world or panics. *)
Inductive outcome (A : Type) : Type :=
| Returned (a : A) (w : World)
| Panicked (reason : string).
Arguments Returned {A} a w.
Arguments Panicked {A} reason.

Definition M (A : Type) : Type := World -> outcome A.

Definition ret {A : Type} (a : A) : M A := fun w => Returned a w.

Definition bind {A B : Type} (m : M A) (k : A -> M B) : M B :=
  fun w => match m w with
           | Returned a w' => k a w'
           | Panicked reason => Panicked reason
           end.

Definition panic {A : Type} (reason : string) : M A := fun _ => Panicked reason.

Notation "x <- m ;; k" := (bind m (fun x => k))
  (at level 61, m at next level, right associativity).
Notation "' pat <- m ;; k" := (bind m (fun x => match x with pat => k end))
  (at level 61, pat pattern, m at next level, right associativity).
Notation "m ;;; k" := (bind m (fun _ => k))
  (at level 61, right associativity).

(** [time.Now()]: the next reading of the clock, in the local location. *)
Definition time_Now : M time_Time :=
  fun w => Returned (mkTime (clock w (reads w)) LocalLocation)
                    (mkWorld (clock w) (S (reads w)) (taskOutcome w) (poolError w) (logged w)).

(** [slog.Error(msg, "classify", c, "error", e)]. *)
Definition slog_Error (msg classify : string) (e : error) : M unit :=
  fun w => Returned tt
                    (mkWorld (clock w) (reads w) (taskOutcome w) (poolError w)
                             (logged w ++ [mkLog msg classify e])).

(** [v[i]]: panics out of range. *)
Definition index {A : Type} (v : list A) (i : nat) : M A :=
  match nth_error v i with
  | Some a => ret a
  | None => panic "index out of range"
  end.

(** [v[:high]] for [high] up to the length: panics out of range. *)
Definition slice_to {A : Type} (v : list A) (high : Z) : M (list A) :=
  if (0 <=? high) && (high <=? Z.of_nat (List.length v))
  then ret (firstn (Z.to_nat high) v)
  else panic "slice bounds out of range".

(** Modelled from the spec: the tasks of the job that [workerPoolDo] runs
    ([newJob], [decodeJsonFromRequestTask] and [withWorkers] are declared
    outside the files at hand).  Section 4.2: N tasks give two
    index-aligned lists of length N, decoded results and errors, where
    exactly one of results[i] and errors[i] is the empty value, and no
    outcome moves to another slot. *)
Fixpoint runTasks (task : nat -> Request -> bilibiliFeedResponseJson + error)
         (i : nat) (requests : list Request)
  : list bilibiliFeedResponseJson * list (option error) :=
  match requests with
  | [] => ([], [])
  | request :: rest =>
      let '(responses, errs) := runTasks task (S i) rest in
      match task i request with
      | inl response => (response :: responses, None :: errs)
      | inr e => (emptyResponse :: responses, Some e :: errs)
      end
  end.

(** Modelled from the spec: [workerPoolDo], declared outside the files at
    hand.  Section 4.2, as above, for its first two results; the spec says
    nothing of the third one, the pool's own error, which the world
    supplies.  The bound of 30 workers does not show in the results. *)
Definition workerPoolDo (requests : list Request)
  : M (list bilibiliFeedResponseJson * list (option error) * option error) :=
  fun w => Returned (runTasks (taskOutcome w) 0 requests, poolError w) w.

(* ================================================================== *)
(** * The widget *)

(** The embedded [widgetBase] and its methods are declared outside the
    files at hand. *)
Module Base.

(** Modelled from the spec: [widgetBase], as far as sections 4.5 and 7
    describe it: a title, the refresh interval, the failure of the last
    update that did not succeed, and the warning of the last partial
    one. *)
Record widgetBase : Type := mk {
  Title : string;
  cacheDuration : Duration;
  Error : option error;
  Notice : option error
}.

(** Modelled from the spec: [withTitle]; the spec leaves the title to the
    collaborator, the setter keeps what it is given. *)
Definition withTitle (title : string) (w : widgetBase) : widgetBase :=
  mk title (cacheDuration w) (Error w) (Notice w).

(** Modelled from the spec: [withCacheDuration]; section 4.5: the refresh
    interval is fixed (one hour) and the timer is a collaborator's. *)
Definition withCacheDuration (duration : Duration) (w : widgetBase) : widgetBase :=
  mk (Title w) duration (Error w) (Notice w).

(** Modelled from the spec: [canContinueUpdateAfterHandlingErr].  Sections
    4.5 and 7: a refresh that ends Empty leaves the stored result
    untouched and is surfaced as a non-fatal update failure; one that ends
    Partial goes on and is surfaced as a warning, not an error; a Complete
    one goes on with no diagnostic. *)
Definition canContinueUpdateAfterHandlingErr (err : option error) (w : widgetBase)
  : widgetBase * bool :=
  match err with
  | None => (mk (Title w) (cacheDuration w) None None, true)
  | Some e =>
      if errors_Is e errPartialContent
      then (mk (Title w) (cacheDuration w) None (Some e), true)
      else (mk (Title w) (cacheDuration w) (Some e) None, false)
  end.

End Base.

Record videosBilibiliWidget : Type := mkWidget {
  widgetBase : Base.widgetBase;
  Videos : bilibiliVideoList;
  VideoUrlTemplate : string;
  Style : string;
  CollapseAfter : Z;
  CollapseAfterRows : Z;
  Classify : list string;
  Limit : Z;
  IncludeShorts : bool
}.

Definition setBase (b : Base.widgetBase) (w : videosBilibiliWidget) : videosBilibiliWidget :=
  mkWidget b (Videos w) (VideoUrlTemplate w) (Style w) (CollapseAfter w)
           (CollapseAfterRows w) (Classify w) (Limit w) (IncludeShorts w).

Definition setVideos (v : bilibiliVideoList) (w : videosBilibiliWidget) : videosBilibiliWidget :=
  mkWidget (widgetBase w) v (VideoUrlTemplate w) (Style w) (CollapseAfter w)
           (CollapseAfterRows w) (Classify w) (Limit w) (IncludeShorts w).

Definition setCollapseAfter (n : Z) (w : videosBilibiliWidget) : videosBilibiliWidget :=
  mkWidget (widgetBase w) (Videos w) (VideoUrlTemplate w) (Style w) n
           (CollapseAfterRows w) (Classify w) (Limit w) (IncludeShorts w).

Definition setCollapseAfterRows (n : Z) (w : videosBilibiliWidget) : videosBilibiliWidget :=
  mkWidget (widgetBase w) (Videos w) (VideoUrlTemplate w) (Style w) (CollapseAfter w)
           n (Classify w) (Limit w) (IncludeShorts w).

Definition setLimit (n : Z) (w : videosBilibiliWidget) : videosBilibiliWidget :=
  mkWidget (widgetBase w) (Videos w) (VideoUrlTemplate w) (Style w) (CollapseAfter w)
           (CollapseAfterRows w) (Classify w) n (IncludeShorts w).

(** [initialize]: the defaults of the configuration; it returns no error. *)
Definition initialize (widget : videosBilibiliWidget) : videosBilibiliWidget * option error :=
  let widget :=
    setBase (Base.withCacheDuration Hour (Base.withTitle "Videos" (widgetBase widget))) widget in
  let widget := if Limit widget <=? 0 then setLimit 25 widget else widget in
  let widget :=
    if (CollapseAfterRows widget =? 0) || (CollapseAfterRows widget <? -1)
    then setCollapseAfterRows 4 widget else widget in
  let widget :=
    if (CollapseAfter widget =? 0) || (CollapseAfter widget <? -1)
    then setCollapseAfter 7 widget else widget in
  (widget, None).

(** [getBilibiliFeedURL]: the request target of a category.  It reads the
    clock once for the parameter wts and, for "weekly", once more for the
    number of the period. *)
Definition getBilibiliFeedURL (classify : string) : M string :=
  now0 <- time_Now ;;
  let wts := Unix now0 in
  if String.eqb classify "all" then
    ret (Sprintf "https://api.bilibili.com/x/web-interface/popular?ps=20&pn=1&wts=%d"
                 [ArgInt wts])
  else if String.eqb classify "weekly" then
    let start := time_Date 2019 March 22 0 0 0 0 in
    now1 <- time_Now ;;
    let now := UTC now1 in
    let duration := Sub now start in
    let days := int_of_float64 (PrimFloat.div (Hours duration) (float64_of_int 24)) in
    let period := Z.quot days 7 in
    ret (Sprintf "https://api.bilibili.com/x/web-interface/popular/series/one?number=%d&wts=%d"
                 [ArgInt period; ArgInt wts])
  else if String.eqb classify "history" then
    ret (Sprintf "https://api.bilibili.com/x/web-interface/popular/precious?page_size=100&page=1&wts=%d"
                 [ArgInt wts])
  else
    ret (Sprintf "https://api.bilibili.com/x/web-interface/ranking/v2?rid=0&type=all&wts=%d"
                 [ArgInt wts]).

(** The first loop of [fetchBilibiliClassifyUploads]: one request per
    category, in order. *)
Fixpoint buildRequests (classify : list string) (requests : list Request) : M (list Request) :=
  match classify with
  | [] => ret requests
  | c :: rest =>
      feedUrl <- getBilibiliFeedURL c ;;
      let request := http_NewRequest "GET" feedUrl in
      let request :=
        Header_Set "User-Agent"
                   "Mozilla/5.0 (Windows NT 10.0; Win64; x64) AppleWebKit/537.36 (KHTML, like Gecko) Chrome/91.0.4472.124 Safari/537.36"
                   request in
      let request := Header_Set "Referer" "https://www.bilibili.com/" request in
      buildRequests rest (requests ++ [request])
  end.

(** The inner loop: one record per entry of a payload, appended in order. *)
Fixpoint appendEntries (videos : bilibiliVideoList) (entries : list Json.entry)
  : bilibiliVideoList :=
  match entries with
  | [] => videos
  | v :: rest =>
      appendEntries
        (videos ++ [ {| ThumbnailUrl := Json.Pic v;
                        Title := Json.Title v;
                        Url := Sprintf "https://www.bilibili.com/video/%s" [ArgString (Json.Bvid v)];
                        Author := Json.Name (Json.Owner v);
                        AuthorUrl := Sprintf "https://space.bilibili.com/%d"
                                             [ArgInt (Json.Mid (Json.Owner v))];
                        Views := Json.View (Json.Stats v);
                        Danmaku := Json.Danmaku (Json.Stats v);
                        Desc := "" |} ])
        rest
  end.

(** The outer loop, over the indices of [responses]: [rest] is what is left
    of [responses] from index [i] on. *)
Fixpoint collectResponses (classify : list string) (errs : list (option error))
         (rest : list bilibiliFeedResponseJson) (i : nat)
         (videos : bilibiliVideoList) (failed : Z) : M (bilibiliVideoList * Z) :=
  match rest with
  | [] => ret (videos, failed)
  | response :: rest' =>
      e <- index errs i ;;
      match e with
      | Some e =>
          c <- index classify i ;;
          slog_Error "Failed to fetch bilibi" c e ;;;
          collectResponses classify errs rest' (S i) videos (failed + 1)
      | None =>
          collectResponses classify errs rest' (S i)
                           (appendEntries videos (Json.List (Data response))) failed
      end
  end.

Section Widget.
Context {sorter : SliceSort}.

Definition sortByView (v : bilibiliVideoList) : bilibiliVideoList :=
  sort_Slice v (fun a b => Views a >? Views b).

Definition fetchBilibiliClassifyUploads
           (classify : list string) (videoUrlTemplate : string) (includeShorts : bool)
  : M (bilibiliVideoList * option error) :=
  requests <- buildRequests classify [] ;;
  ' (responses, errs, err) <- workerPoolDo requests ;;
  match err with
  | Some err => ret ([], Some (fmt_Errorf "%w: %v" errNoContent (OperandErr err)))
  | None =>
      ' (videos, failed) <- collectResponses classify errs responses 0 [] 0 ;;
      if Z.of_nat (List.length videos) =? 0 then ret ([], Some errNoContent)
      else
        let videos := sortByView videos in
        if failed >? 0 then
          ret (videos,
               Some (fmt_Errorf "%w: missing videos from %d channels"
                                errPartialContent (OperandInt failed)))
        else ret (videos, None)
  end.

(** [update]: one refresh cycle.  The context is not used. *)
Definition update (ctx : unit) (widget : videosBilibiliWidget) : M videosBilibiliWidget :=
  ' (videos, err) <- fetchBilibiliClassifyUploads (Classify widget) (VideoUrlTemplate widget)
                                                  (IncludeShorts widget) ;;
  let '(base, continue) :=
    Base.canContinueUpdateAfterHandlingErr err (widgetBase widget) in
  let widget := setBase base widget in
  if negb continue then ret widget
  else
    videos <- (if Z.of_nat (List.length videos) >? Limit widget
               then slice_to videos (Limit widget)
               else ret videos) ;;
    ret (setVideos videos widget).
End Widget.

(* ================================================================== *)
(** * The other version of the file

    src/internal/glance/widget-videos-bilibili.go holds another version of
    the same widget: [initialize], [update] and [getBilibiliFeedURL] are the
    same; its payload has no stat and its records, of the type [video] of
    the package, carry the time of the fetch in place of the views; its
    requests set no Referer; and its call of the sort is commented out. *)
Module WidgetVideosBilibili.

(** The fields of [video] that the code sets; the type is declared
    outside the files at hand. *)
Record video : Type := mkVideo {
  ThumbnailUrl : string;
  Title : string;
  Url : string;
  Author : string;
  AuthorUrl : string;
  TimePosted : time_Time
}.

Definition bilibiliVideoList : Type := list video.

Fixpoint buildRequests (classify : list string) (requests : list Request) : M (list Request) :=
  match classify with
  | [] => ret requests
  | c :: rest =>
      feedUrl <- getBilibiliFeedURL c ;;
      let request := http_NewRequest "GET" feedUrl in
      let request :=
        Header_Set "User-Agent"
                   "Mozilla/5.0 (Windows NT 10.0; Win64; x64) AppleWebKit/537.36 (KHTML, like Gecko) Chrome/91.0.4472.124 Safari/537.36"
                   request in
      buildRequests rest (requests ++ [request])
  end.

(** The inner loop; it reads the clock for every entry. *)
Fixpoint appendEntries (videos : bilibiliVideoList) (entries : list Json.entry)
  : M bilibiliVideoList :=
  match entries with
  | [] => ret videos
  | v :: rest =>
      posted <- time_Now ;;
      appendEntries
        (videos ++ [ {| ThumbnailUrl := Json.Pic v;
                        Title := Json.Title v;
                        Url := Sprintf "https://www.bilibili.com/video/%s" [ArgString (Json.Bvid v)];
                        Author := Json.Name (Json.Owner v);
                        AuthorUrl := Sprintf "https://space.bilibili.com/%d"
                                             [ArgInt (Json.Mid (Json.Owner v))];
                        TimePosted := posted |} ])
        rest
  end.

Fixpoint collectResponses (classify : list string) (errs : list (option error))
         (rest : list bilibiliFeedResponseJson) (i : nat)
         (videos : bilibiliVideoList) (failed : Z) : M (bilibiliVideoList * Z) :=
  match rest with
  | [] => ret (videos, failed)
  | response :: rest' =>
      e <- index errs i ;;
      match e with
      | Some e =>
          c <- index classify i ;;
          slog_Error "Failed to fetch bilibi" c e ;;;
          collectResponses classify errs rest' (S i) videos (failed + 1)
      | None =>
          videos <- appendEntries videos (Json.List (Data response)) ;;
          collectResponses classify errs rest' (S i) videos failed
      end
  end.

Definition fetchBilibiliClassifyUploads
           (classify : list string) (videoUrlTemplate : string) (includeShorts : bool)
  : M (bilibiliVideoList * option error) :=
  requests <- buildRequests classify [] ;;
  ' (responses, errs, err) <- workerPoolDo requests ;;
  match err with
  | Some err => ret ([], Some (fmt_Errorf "%w: %v" errNoContent (OperandErr err)))
  | None =>
      ' (videos, failed) <- collectResponses classify errs responses 0 [] 0 ;;
      if Z.of_nat (List.length videos) =? 0 then ret ([], Some errNoContent)
      else
        if failed >? 0 then
          ret (videos,
               Some (fmt_Errorf "%w: missing videos from %d channels"
                                errPartialContent (OperandInt failed)))
        else ret (videos, None)
  end.

Section Sort.
Context {sorter : SliceSort}.

(** [sortByNewest]; the call of it in the fetch above is commented out. *)
Definition sortByNewest (v : bilibiliVideoList) : bilibiliVideoList :=
  sort_Slice v (fun a b => After (TimePosted a) (TimePosted b)).
End Sort.

End WidgetVideosBilibili.

(* ================================================================== *)
(** * Vocabulary of the statements *)

(** The record the inner loop builds from one entry of a payload. *)
Definition recordOf (v : Json.entry) : videoBilibili :=
  {| ThumbnailUrl := Json.Pic v;
     Title := Json.Title v;
     Url := Sprintf "https://www.bilibili.com/video/%s" [ArgString (Json.Bvid v)];
     Author := Json.Name (Json.Owner v);
     AuthorUrl := Sprintf "https://space.bilibili.com/%d" [ArgInt (Json.Mid (Json.Owner v))];
     Views := Json.View (Json.Stats v);
     Danmaku := Json.Danmaku (Json.Stats v);
     Desc := "" |}.

(** The records of the categories whose slot holds no error, in the order
    of the categories and of their entries. *)
Fixpoint mergedRecords (responses : list bilibiliFeedResponseJson) (errs : list (option error))
  : bilibiliVideoList :=
  match responses, errs with
  | response :: responses', None :: errs' =>
      map recordOf (Json.List (Data response)) ++ mergedRecords responses' errs'
  | _ :: responses', Some _ :: errs' => mergedRecords responses' errs'
  | _, _ => []
  end.

(** The number of categories whose slot holds an error. *)
Fixpoint failures (errs : list (option error)) : Z :=
  match errs with
  | [] => 0
  | Some _ :: errs' => failures errs' + 1
  | None :: errs' => failures errs'
  end.

(** The number of categories without error whose payload has entries, and
    the number of those whose payload has none. *)
Fixpoint contributing (responses : list bilibiliFeedResponseJson) (errs : list (option error))
  : Z :=
  match responses, errs with
  | response :: responses', None :: errs' =>
      match Json.List (Data response) with
      | [] => contributing responses' errs'
      | _ :: _ => contributing responses' errs' + 1
      end
  | _ :: responses', Some _ :: errs' => contributing responses' errs'
  | _, _ => 0
  end.

Fixpoint emptySuccesses (responses : list bilibiliFeedResponseJson) (errs : list (option error))
  : Z :=
  match responses, errs with
  | response :: responses', None :: errs' =>
      match Json.List (Data response) with
      | [] => emptySuccesses responses' errs' + 1
      | _ :: _ => emptySuccesses responses' errs'
      end
  | _ :: responses', Some _ :: errs' => emptySuccesses responses' errs'
  | _, _ => 0
  end.

(** The diagnostics of a cycle: one per failed category, with its name. *)
Fixpoint diagnostics (classify : list string) (errs : list (option error)) : list logRecord :=
  match classify, errs with
  | c :: classify', Some e :: errs' =>
      mkLog "Failed to fetch bilibi" c e :: diagnostics classify' errs'
  | _ :: classify', None :: errs' => diagnostics classify' errs'
  | _, _ => []
  end.

Definition logMore (records : list logRecord) (w : World) : World :=
  mkWorld (clock w) (reads w) (taskOutcome w) (poolError w) (logged w ++ records).

(** What the worker pool hands back for the categories in a world: the
    responses, the errors and the pool's own error. *)
Definition poolOutcome (classify : list string) (w : World)
  : option (list bilibiliFeedResponseJson * list (option error) * option error) :=
  match (requests <- buildRequests classify [] ;; workerPoolDo requests) w with
  | Returned r _ => Some r
  | Panicked _ => None
  end.

(** What a call returned, if it did. *)
Definition returned {A : Type} (o : outcome A) : option A :=
  match o with
  | Returned a _ => Some a
  | Panicked _ => None
  end.

(** Ranked by view count, descending. *)
Definition sortedByViews (v : bilibiliVideoList) : Prop :=
  StronglySorted (fun earlier later => Views later <= Views earlier) v.

(** The Partial outcome with its count of failed categories. *)
Definition partialContent (failed : Z) : error :=
  fmt_Errorf "%w: missing videos from %d channels" errPartialContent (OperandInt failed).

(** The clock and the network of two worlds agree: only readings of the
    clock lie between them. *)
Definition sameNetwork (w w' : World) : Prop :=
  clock w' = clock w /\ taskOutcome w' = taskOutcome w /\
  poolError w' = poolError w /\ logged w' = logged w.

(** A character of a decimal number, as %d prints it. *)
Definition isNumberChar (c : ascii) : bool :=
  Ascii.eqb c "-" || ((48 <=? nat_of_ascii c)%nat && (nat_of_ascii c <=? 57)%nat).

Fixpoint dropNumberChars (l : list ascii) : list ascii :=
  match l with
  | [] => []
  | c :: rest => if isNumberChar c then dropNumberChars rest else l
  end.

(** A request target without the value of its last parameter, wts: every
    target of [getBilibiliFeedURL] ends with that number. *)
Definition withoutWts (url : string) : string :=
  string_of_list_ascii (rev (dropNumberChars (rev (list_ascii_of_string url)))).

(** The whole periods of seven days from one instant to a later one. *)
Definition wholeWeeksBetween (start now : time_Time) : Z :=
  (unixNano now - unixNano start) / (7 * 24 * Hour).

(* ================================================================== *)
(** * Vocabulary of the further properties *)

(** The four endpoints that the switch of [getBilibiliFeedURL] selects. *)
Inductive endpoint : Type := Popular | Series | Precious | Ranking.

Definition endpointOf (classify : string) : endpoint :=
  if String.eqb classify "all" then Popular
  else if String.eqb classify "weekly" then Series
  else if String.eqb classify "history" then Precious
  else Ranking.

(** The readings of the clock that resolving a category takes. *)
Definition readsOf (classify : string) : nat :=
  if String.eqb classify "weekly" then 2%nat else 1%nat.

Fixpoint readsOfAll (classify : list string) : nat :=
  match classify with
  | [] => 0%nat
  | c :: rest => (readsOfAll rest + readsOf c)%nat
  end.

(** A world after [n] more readings of its clock. *)
Definition advance (n : nat) (w : World) : World :=
  mkWorld (clock w) (n + reads w) (taskOutcome w) (poolError w) (logged w).

(** The two headers that every request of the widget carries. *)
Definition widgetHeaders : list (string * string) :=
  [("User-Agent",
    "Mozilla/5.0 (Windows NT 10.0; Win64; x64) AppleWebKit/537.36 (KHTML, like Gecko) Chrome/91.0.4472.124 Safari/537.36");
   ("Referer", "https://www.bilibili.com/")].

(** A request as the first loop builds it for a category: a GET of a
    target of that category, with the two headers of the widget. *)
Definition requestFor (classify : string) (request : Request) : Prop :=
  Method request = "GET" /\
  Header request = widgetHeaders /\
  exists w w', getBilibiliFeedURL classify w = Returned (URL request) w'.

(** What the worker pool hands back to the other version of the fetch,
    whose requests carry no Referer. *)
Definition otherPoolOutcome (classify : list string) (w : World)
  : option (list bilibiliFeedResponseJson * list (option error) * option error) :=
  match (requests <- WidgetVideosBilibili.buildRequests classify [] ;;
         workerPoolDo requests) w with
  | Returned r _ => Some r
  | Panicked _ => None
  end.

(** A record as the other version builds it from an entry: the fields of
    the entry, and a reading of the clock of the world as time. *)
Definition postedFrom (w : World) (entry : Json.entry) (v : WidgetVideosBilibili.video)
  : Prop :=
  WidgetVideosBilibili.ThumbnailUrl v = Json.Pic entry /\
  WidgetVideosBilibili.Title v = Json.Title entry /\
  WidgetVideosBilibili.Url v = Url (recordOf entry) /\
  WidgetVideosBilibili.Author v = Json.Name (Json.Owner entry) /\
  WidgetVideosBilibili.AuthorUrl v = AuthorUrl (recordOf entry) /\
  exists n, WidgetVideosBilibili.TimePosted v = mkTime (clock w n) LocalLocation.

(** Newest first. *)
Definition sortedByNewest (v : WidgetVideosBilibili.bilibiliVideoList) : Prop :=
  StronglySorted
    (fun earlier later =>
       unixNano (WidgetVideosBilibili.TimePosted later)
       <= unixNano (WidgetVideosBilibili.TimePosted earlier)) v.

(** The entries of the categories whose slot holds no error. *)
Fixpoint mergedEntries (responses : list bilibiliFeedResponseJson) (errs : list (option error))
  : list Json.entry :=
  match responses, errs with
  | response :: responses', None :: errs' =>
      Json.List (Data response) ++ mergedEntries responses' errs'
  | _ :: responses', Some _ :: errs' => mergedEntries responses' errs'
  | _, _ => []
  end.

(** A configuration as [initialize] leaves it. *)
Definition validConfiguration (widget : videosBilibiliWidget) : Prop :=
  0 < Limit widget /\
  (CollapseAfter widget = -1 \/ 0 < CollapseAfter widget) /\
  (CollapseAfterRows widget = -1 \/ 0 < CollapseAfterRows widget).

(** Two widgets with the same configuration: all but the stored videos
    and the embedded base. *)
Definition sameConfiguration (a b : videosBilibiliWidget) : Prop :=
  VideoUrlTemplate a = VideoUrlTemplate b /\ Style a = Style b /\
  CollapseAfter a = CollapseAfter b /\ CollapseAfterRows a = CollapseAfterRows b /\
  Classify a = Classify b /\ Limit a = Limit b /\ IncludeShorts a = IncludeShorts b.

(** The instant a whole number of days after the reference date of
    "weekly": the weeks of "weekly" begin at such instants. *)
Definition daysAfterReference (d : Z) : Z := 1553212800 * Second + d * (24 * Hour).

(** The period that "weekly" computes from a reading of the clock. *)
Definition weeklyPeriodAt (instant : Z) : Z :=
  Z.quot (int_of_float64
            (PrimFloat.div
               (Hours (Sub (UTC (mkTime instant LocalLocation)) (time_Date 2019 March 22 0 0 0 0)))
               (float64_of_int 24)))
         7.

(** Whether, at each of the [count] whole days from day [d] after the
    reference date on, that period is the number of whole weeks elapsed. *)
Fixpoint periodsExactFrom (count : nat) (d : Z) : bool :=
  match count with
  | O => true
  | S count' =>
      if weeklyPeriodAt (daysAfterReference d) =? d / 7
      then periodsExactFrom count' (d + 1)
      else false
  end.

(* ================================================================== *)
(** * Sample inputs *)

Definition entryNamed (bvid : string) (views : Z) : Json.entry :=
  Json.mkEntry "pic" "title" bvid (Json.mkOwner 2 "owner") (Json.mkStat views 0).

Definition sampleEntry (views : Z) : Json.entry := entryNamed "BV1xx411c7mD" views.

Definition sampleResponse : bilibiliFeedResponseJson :=
  mkResponse (Json.mkData [sampleEntry 100; sampleEntry 5; sampleEntry 300]).

(** A clock that stands at wts=1742227080, the reading of the comment
    above [fetchBilibiliClassifyUploads]. *)
Definition sampleClock : nat -> Z := fun _ => 1742227080 * Second.

Definition allSucceed (i : nat) (request : Request) : bilibiliFeedResponseJson + error :=
  inl sampleResponse.

Definition allNamed (i : nat) (request : Request) : bilibiliFeedResponseJson + error :=
  inl (mkResponse (Json.mkData [entryNamed "BV1" 100; entryNamed "BV2" 5; entryNamed "BV3" 300])).

Definition allEmpty (i : nat) (request : Request) : bilibiliFeedResponseJson + error :=
  inl emptyResponse.

Definition allFail (i : nat) (request : Request) : bilibiliFeedResponseJson + error :=
  inr (errorString "timeout").

(** The first category succeeds, the second returns no entry, the others
    fail. *)
Definition firstOnly (i : nat) (request : Request) : bilibiliFeedResponseJson + error :=
  match i with
  | O => inl sampleResponse
  | S O => inl emptyResponse
  | _ => inr (errorString "timeout")
  end.

Definition worldWith (task : nat -> Request -> bilibiliFeedResponseJson + error) : World :=
  mkWorld sampleClock 0 task None [].

Definition sampleWidget (classify : list string) (limit : Z) : videosBilibiliWidget :=
  mkWidget (Base.mk "" 0 None None) [recordOf (sampleEntry 7)] "" "" 0 (-1) classify limit false.

(** One nanosecond before the end of the 400th week after the reference
    date, that is at 2026-11-19 23:59:59.999999999 UTC. *)
Definition lastNanosecondOfWeek400 : Z := 1795132800 * Second - 1.

(* ================================================================== *)
(** * Insertion sort meets the contract of sort.Slice *)

Section InsertionSort.
Variable A : Type.
Variable less : A -> A -> bool.

Lemma insertBy_permutes (x : A) (v : list A) :
  Permutation (x :: v) (insertBy less x v).
Proof.
  induction v as [|y rest IH]; simpl.
  - apply Permutation_refl.
  - destruct (less x y).
    + apply Permutation_refl.
    + eapply perm_trans; [apply perm_swap|]. now apply perm_skip.
Qed.

Lemma insertionSort_permutes (v : list A) :
  Permutation v (insertionSort v less).
Proof.
  induction v as [|x rest IH]; simpl.
  - apply perm_nil.
  - eapply perm_trans; [apply perm_skip, IH | apply insertBy_permutes].
Qed.

Hypothesis ordering : lessOrdering less.

Lemma insertBy_sorted (x : A) (v : list A) :
  sortedFor less v -> sortedFor less (insertBy less x v).
Proof.
  unfold sortedFor.
  induction v as [|y rest IH]; simpl; intros Hs.
  - constructor; [constructor | constructor].
  - apply StronglySorted_inv in Hs. destruct Hs as [Hrest Hy].
    destruct (less x y) eqn:Hxy.
    + constructor.
      * constructor; assumption.
      * constructor.
        -- destruct (less y x) eqn:Hyx; [|reflexivity].
           rewrite <- (less_irrefl less ordering x).
           symmetry. eapply (less_trans less ordering); eassumption.
        -- rewrite Forall_forall in *. intros z Hz.
           destruct (less z x) eqn:Hzx; [|reflexivity].
           rewrite <- (Hy z Hz).
           symmetry. eapply (less_trans less ordering); eassumption.
    + constructor.
      * apply IH. assumption.
      * eapply Permutation_Forall; [apply insertBy_permutes|].
        constructor; assumption.
Qed.

Lemma insertionSort_sorted (v : list A) :
  sortedFor less (insertionSort v less).
Proof.
  induction v as [|x rest IH]; simpl.
  - constructor.
  - apply insertBy_sorted, IH.
Qed.
End InsertionSort.

#[export] Instance insertionSorter : SliceSort := {|
  sort_Slice := @insertionSort;
  sort_Slice_permutes := fun A v less => insertionSort_permutes A less v;
  sort_Slice_sorts := fun A v less ordering => insertionSort_sorted A less ordering v
|}.

(* ================================================================== *)
(** * Running the code *)

Lemma bind_Returned {A B : Type} (m : M A) (k : A -> M B) (w w' : World) (a : A) :
  m w = Returned a w' -> bind m k w = k a w'.
Proof. intros H. unfold bind. now rewrite H. Qed.

Lemma appendEntries_map (entries : list Json.entry) :
  forall videos, appendEntries videos entries = videos ++ map recordOf entries.
Proof.
  induction entries as [|v rest IH]; intros videos; simpl.
  - now rewrite app_nil_r.
  - rewrite IH, <- app_assoc. reflexivity.
Qed.

Lemma sameNetwork_refl (w : World) : sameNetwork w w.
Proof. repeat split. Qed.

Lemma sameNetwork_trans (w1 w2 w3 : World) :
  sameNetwork w1 w2 -> sameNetwork w2 w3 -> sameNetwork w1 w3.
Proof.
  unfold sameNetwork. intros (a & b & c & d) (a' & b' & c' & d').
  repeat split; congruence.
Qed.

(** The resolver always returns, and only reads the clock. *)
Lemma getBilibiliFeedURL_returns (classify : string) (w : World) :
  exists url w', getBilibiliFeedURL classify w = Returned url w' /\ sameNetwork w w'.
Proof.
  unfold getBilibiliFeedURL, bind, time_Now, ret.
  destruct (String.eqb classify "all");
    [|destruct (String.eqb classify "weekly");
      [|destruct (String.eqb classify "history")]];
    eexists; eexists; (split; [reflexivity | repeat split]).
Qed.

Lemma buildRequests_returns (classify : list string) :
  forall requests w,
  exists requests' w',
    buildRequests classify requests w = Returned (requests ++ requests') w' /\
    List.length requests' = List.length classify /\ sameNetwork w w'.
Proof.
  induction classify as [|c rest IH]; intros requests w; simpl.
  - exists [], w. rewrite app_nil_r. repeat split.
  - destruct (getBilibiliFeedURL_returns c w) as (url & w1 & Hurl & Hnet).
    rewrite (bind_Returned _ _ _ _ _ Hurl).
    match goal with |- context [buildRequests rest (requests ++ [?r])] =>
      destruct (IH (requests ++ [r]) w1) as (more & w2 & Hrun & Hlen & Hnet2);
      exists (r :: more), w2
    end.
    rewrite Hrun, <- app_assoc. simpl. repeat split.
    + now rewrite Hlen.
    + apply (sameNetwork_trans _ _ _ Hnet Hnet2).
    + apply (sameNetwork_trans _ _ _ Hnet Hnet2).
    + apply (sameNetwork_trans _ _ _ Hnet Hnet2).
    + apply (sameNetwork_trans _ _ _ Hnet Hnet2).
Qed.

Lemma runTasks_lengths (task : nat -> Request -> bilibiliFeedResponseJson + error)
      (requests : list Request) :
  forall i responses errs,
    runTasks task i requests = (responses, errs) ->
    List.length responses = List.length requests /\ List.length errs = List.length requests.
Proof.
  induction requests as [|r rest IH]; intros i responses errs; simpl.
  - intros H. inversion H. split; reflexivity.
  - destruct (runTasks task (S i) rest) as [rs es] eqn:Hrest.
    destruct (IH _ _ _ Hrest) as [Hr He].
    destruct (task i r); intros H; inversion H; simpl; split; congruence.
Qed.

(** The pool hands back one slot per category. *)
Lemma poolOutcome_run (classify : list string) (w : World) :
  exists requests w1,
    buildRequests classify [] w = Returned requests w1 /\
    sameNetwork w w1 /\
    poolOutcome classify w = Some (runTasks (taskOutcome w1) 0 requests, poolError w1) /\
    List.length (fst (runTasks (taskOutcome w1) 0 requests)) = List.length classify /\
    List.length (snd (runTasks (taskOutcome w1) 0 requests)) = List.length classify.
Proof.
  destruct (buildRequests_returns classify [] w) as (requests & w1 & Hrun & Hlen & Hnet).
  simpl in Hrun. exists requests, w1.
  split; [exact Hrun|]. split; [exact Hnet|].
  unfold poolOutcome. rewrite (bind_Returned _ _ _ _ _ Hrun). unfold workerPoolDo.
  split; [reflexivity|].
  destruct (runTasks (taskOutcome w1) 0 requests) as [rs es] eqn:Htasks.
  destruct (runTasks_lengths _ _ _ _ _ Htasks) as [Hr He].
  simpl. split; congruence.
Qed.

Lemma index_app_here {A : Type} (done rest : list A) (a : A) (w : World) :
  index (done ++ a :: rest) (List.length done) w = Returned a w.
Proof.
  unfold index. rewrite nth_error_app2 by apply Nat.le_refl.
  rewrite Nat.sub_diag. reflexivity.
Qed.

(** The outer loop on index-aligned slices: it merges the records of the
    categories without error, counts the others and logs each of them
    under its own name. *)
Lemma collectResponses_run (rest : list bilibiliFeedResponseJson) :
  forall (erest : list (option error)) (crest : list string)
         (edone : list (option error)) (cdone : list string)
         (videos : bilibiliVideoList) (failed : Z) (w : World),
    List.length edone = List.length cdone ->
    List.length erest = List.length rest ->
    List.length crest = List.length rest ->
    collectResponses (cdone ++ crest) (edone ++ erest) rest (List.length edone) videos failed w
    = Returned (videos ++ mergedRecords rest erest, failed + failures erest)
               (logMore (diagnostics crest erest) w).
Proof.
  induction rest as [|response rest' IH];
    intros erest crest edone cdone videos failed w Hdone He Hc.
  - destruct erest; [|discriminate]. destruct crest; [|discriminate]. simpl.
    rewrite app_nil_r, Z.add_0_r. unfold ret, logMore.
    rewrite app_nil_r. now destruct w.
  - destruct erest as [|e erest']; [discriminate|].
    destruct crest as [|c crest']; [discriminate|].
    simpl in He, Hc. injection He as He. injection Hc as Hc.
    cbn [collectResponses].
    rewrite (bind_Returned _ _ _ _ _ (index_app_here edone erest' e w)).
    assert (Hshift : forall (X : Type) (l : list X) (x : X) (l' : list X),
               l ++ x :: l' = (l ++ [x]) ++ l')
      by (intros; now rewrite <- app_assoc).
    assert (Hnext : S (List.length edone) = List.length (edone ++ [e]))
      by (rewrite length_app; simpl; lia).
    destruct e as [e|].
    + rewrite Hdone at 1.
      rewrite (bind_Returned _ _ _ _ _ (index_app_here cdone crest' c w)).
      unfold bind at 1. unfold slog_Error.
      rewrite (Hshift _ edone), (Hshift _ cdone), Hnext.
      rewrite IH by (rewrite ?length_app; simpl; lia).
      simpl. f_equal.
      * f_equal. lia.
      * unfold logMore. simpl. now rewrite <- app_assoc.
    + rewrite (Hshift _ edone), (Hshift _ cdone), Hnext.
      rewrite IH by (rewrite ?length_app; simpl; lia).
      simpl. rewrite appendEntries_map, <- app_assoc. reflexivity.
Qed.

Lemma failures_nonneg (errs : list (option error)) : 0 <= failures errs.
Proof. induction errs as [|[e|] rest IH]; simpl; lia. Qed.

Lemma failures_and_successes (responses : list bilibiliFeedResponseJson) :
  forall errs : list (option error),
    List.length responses = List.length errs ->
    failures errs + contributing responses errs + emptySuccesses responses errs
    = Z.of_nat (List.length errs).
Proof.
  induction responses as [|r rest IH]; intros [|[e|] errs] Hlen;
    try discriminate; [reflexivity| |];
    injection Hlen as Hlen; specialize (IH errs Hlen);
    cbn [failures contributing emptySuccesses List.length];
    [|destruct (Json.List (Data r))]; lia.
Qed.

Lemma failures_none (errs : list (option error)) :
  Forall (fun e => e = None) errs -> failures errs = 0.
Proof.
  induction 1 as [|e rest He _ IH]; simpl; [reflexivity|]. now subst e.
Qed.

(** Whether a slice is empty, as the code tests it. *)
Lemma length_zero_iff {A : Type} (v : list A) :
  (Z.of_nat (List.length v) =? 0) = match v with [] => true | _ => false end.
Proof. destruct v; reflexivity. Qed.

Lemma viewsOrdering : lessOrdering (fun a b : videoBilibili => Views a >? Views b).
Proof.
  split; intros *; rewrite ?Z.gtb_ltb, ?Z.ltb_lt, ?Z.ltb_ge; lia.
Qed.

Section Running.
Context {sorter : SliceSort}.

Lemma sortByView_permutes (v : bilibiliVideoList) : Permutation v (sortByView v).
Proof. apply sort_Slice_permutes. Qed.

Lemma sortByView_sorted (v : bilibiliVideoList) : sortedByViews (sortByView v).
Proof.
  pose proof (sort_Slice_sorts _ v _ viewsOrdering) as H.
  unfold sortedByViews, sortByView, sortedFor in *.
  induction H as [|a l Hl IH Ha]; constructor.
  - exact IH.
  - rewrite Forall_forall in *. intros b Hb.
    specialize (Ha b Hb). rewrite Z.gtb_ltb, Z.ltb_ge in Ha. exact Ha.
Qed.

(** One cycle of [fetchBilibiliClassifyUploads], from what the pool hands
    back: the three outcomes, and the diagnostics it logs. *)
Lemma fetch_run (classify : list string) (videoUrlTemplate : string) (includeShorts : bool)
      (w : World) (responses : list bilibiliFeedResponseJson)
      (errs : list (option error)) (perr : option error) :
  poolOutcome classify w = Some (responses, errs, perr) ->
  exists w',
    fetchBilibiliClassifyUploads classify videoUrlTemplate includeShorts w
    = Returned
        match perr with
        | Some e => ([], Some (fmt_Errorf "%w: %v" errNoContent (OperandErr e)))
        | None =>
            match mergedRecords responses errs with
            | [] => ([], Some errNoContent)
            | _ :: _ =>
                (sortByView (mergedRecords responses errs),
                 if failures errs >? 0 then Some (partialContent (failures errs)) else None)
            end
        end
        w'.
Proof.
  intros Hpool.
  destruct (poolOutcome_run classify w)
    as (requests & w1 & Hreq & Hnet & Hpool' & Hlr & Hle).
  rewrite Hpool in Hpool'. injection Hpool' as Htasks Hperr.
  rewrite <- Htasks in Hlr, Hle. simpl in Hlr, Hle.
  unfold fetchBilibiliClassifyUploads.
  rewrite (bind_Returned _ _ _ _ _ Hreq).
  unfold bind at 1. unfold workerPoolDo.
  rewrite <- Htasks, <- Hperr.
  destruct perr as [e|].
  - eexists. reflexivity.
  - pose proof (collectResponses_run responses errs classify [] [] [] 0 w1
                                     eq_refl (eq_trans Hle (eq_sym Hlr)) (eq_sym Hlr)) as Hrun.
    simpl in Hrun.
    rewrite (bind_Returned _ _ _ _ _ Hrun).
    rewrite length_zero_iff.
    destruct (mergedRecords responses errs) as [|v vs] eqn:Hm.
    + eexists. reflexivity.
    + destruct (failures errs >? 0); eexists; reflexivity.
Qed.
End Running.

(* ================================================================== *)
(** * Configuration defaults *)

(** C6: [initialize] returns no error and replaces a limit of 0 or less by
    25, a collapse-after-rows of 0 or below -1 by 4, a collapse-after of 0
    or below -1 by 7, and keeps a threshold of exactly -1. *)
Theorem initialize_defaults (widget : videosBilibiliWidget) :
  snd (initialize widget) = None /\
  (Limit widget <= 0 -> Limit (fst (initialize widget)) = 25) /\
  (CollapseAfterRows widget = 0 \/ CollapseAfterRows widget < -1 ->
   CollapseAfterRows (fst (initialize widget)) = 4) /\
  (CollapseAfter widget = 0 \/ CollapseAfter widget < -1 ->
   CollapseAfter (fst (initialize widget)) = 7) /\
  (CollapseAfterRows widget = -1 -> CollapseAfterRows (fst (initialize widget)) = -1) /\
  (CollapseAfter widget = -1 -> CollapseAfter (fst (initialize widget)) = -1).
Proof.
  destruct widget as [b vs tmpl style after rows classify limit shorts].
  unfold initialize, setBase, setLimit, setCollapseAfterRows, setCollapseAfter.
  cbn [fst snd widgetBase Videos VideoUrlTemplate Style CollapseAfter CollapseAfterRows
       Classify Limit IncludeShorts].
  destruct (Z.leb_spec limit 0);
    cbn [widgetBase Videos VideoUrlTemplate Style CollapseAfter CollapseAfterRows
         Classify Limit IncludeShorts];
    destruct (Z.eqb_spec rows 0); destruct (Z.ltb_spec rows (-1));
    cbn [orb widgetBase Videos VideoUrlTemplate Style CollapseAfter CollapseAfterRows
         Classify Limit IncludeShorts];
    destruct (Z.eqb_spec after 0); destruct (Z.ltb_spec after (-1));
    cbn [orb fst widgetBase Videos VideoUrlTemplate Style CollapseAfter CollapseAfterRows
         Classify Limit IncludeShorts];
    repeat split; intros; lia.
Qed.

Lemma initialize_defaults_witness :
  Limit (fst (initialize (sampleWidget ["all"] (-3)))) = 25 /\
  CollapseAfter (fst (initialize (sampleWidget ["all"] (-3)))) = 7 /\
  CollapseAfterRows (fst (initialize (sampleWidget ["all"] (-3)))) = -1.
Proof.
  pose proof (initialize_defaults (sampleWidget ["all"] (-3)))
    as (_ & Hlimit & _ & Hafter & Hrows & _).
  split; [apply Hlimit; simpl; lia|].
  split; [apply Hafter; left; reflexivity | apply Hrows; reflexivity].
Defined.

(* ================================================================== *)
(** * The endpoint resolver *)

Lemma append_empty_r (s : string) : (s ++ "")%string = s.
Proof. induction s as [|c s IH]; simpl; [reflexivity | now rewrite IH]. Qed.

(** C9: a category that is none of "all", "weekly" and "history" resolves
    to the ranking endpoint, with the seconds of the clock's reading as
    wts; the resolver returns and only reads the clock. *)
Theorem unknown_category_falls_back_to_ranking (classify : string) (w : World) :
  classify <> "all" -> classify <> "weekly" -> classify <> "history" ->
  exists w',
    getBilibiliFeedURL classify w
    = Returned ("https://api.bilibili.com/x/web-interface/ranking/v2?rid=0&type=all&wts="
                  ++ formatInt (clock w (reads w) / Second))%string w'
    /\ sameNetwork w w'.
Proof.
  intros Hall Hweekly Hhistory.
  apply String.eqb_neq in Hall, Hweekly, Hhistory.
  unfold getBilibiliFeedURL, bind, time_Now, ret.
  rewrite Hall, Hweekly, Hhistory.
  eexists. split.
  - cbn [Sprintf Ascii.eqb Bool.eqb formatArg Unix unixNano append].
    rewrite append_empty_r. reflexivity.
  - repeat split.
Qed.

Lemma unknown_category_falls_back_to_ranking_witness :
  exists w',
    getBilibiliFeedURL "rank/all" (worldWith allSucceed)
    = Returned "https://api.bilibili.com/x/web-interface/ranking/v2?rid=0&type=all&wts=1742227080" w'
    /\ sameNetwork (worldWith allSucceed) w'.
Proof.
  apply (unknown_category_falls_back_to_ranking "rank/all" (worldWith allSucceed));
    discriminate.
Defined.

(* ================================================================== *)
(** * One fetch cycle *)

Lemma StronglySorted_firstn {A : Type} (R : A -> A -> Prop) (n : nat) :
  forall l : list A, StronglySorted R l -> StronglySorted R (firstn n l).
Proof.
  induction n as [|n IH]; intros l Hl; [constructor|].
  destruct l as [|a l]; [constructor|].
  apply StronglySorted_inv in Hl. destruct Hl as [Hl Ha].
  simpl. constructor; [now apply IH|].
  rewrite Forall_forall in *. intros b Hb. apply Ha.
  rewrite <- (firstn_skipn n l). apply in_or_app. now left.
Qed.

Lemma errors_Is_partialContent (failed : Z) :
  errors_Is (partialContent failed) errPartialContent = true.
Proof. reflexivity. Qed.

Section Cycle.
Context {sorter : SliceSort}.

(** C10: [videoUrlTemplate] and [includeShorts] have no influence: in the
    same world, two calls that differ only in them are the same
    computation; and in any two worlds where the pool hands back the same
    outcomes, they return the same videos and the same error. *)
Theorem unused_parameters_have_no_influence
        (classify : list string) (template1 template2 : string) (shorts1 shorts2 : bool)
        (w : World) :
  fetchBilibiliClassifyUploads classify template1 shorts1 w
  = fetchBilibiliClassifyUploads classify template2 shorts2 w /\
  forall w2 : World,
    poolOutcome classify w = poolOutcome classify w2 ->
    returned (fetchBilibiliClassifyUploads classify template1 shorts1 w)
    = returned (fetchBilibiliClassifyUploads classify template2 shorts2 w2).
Proof.
  split; [reflexivity|].
  intros w2 Hsame.
  destruct (poolOutcome_run classify w) as (requests & w1 & _ & _ & Hpool & _).
  destruct (runTasks (taskOutcome w1) 0 requests) as [responses errs].
  pose proof Hpool as Hpool2. rewrite Hsame in Hpool2.
  destruct (fetch_run classify template1 shorts1 w _ _ _ Hpool) as (w' & Hrun).
  destruct (fetch_run classify template2 shorts2 w2 _ _ _ Hpool2) as (w2' & Hrun2).
  rewrite Hrun, Hrun2. reflexivity.
Qed.

(** C2: when no category contributes a record (each one failed or
    returned no entry), the cycle is Empty, whatever the number of
    failures: it returns no videos and an error that is errNoContent,
    the sentinel itself when the pool reported no error of its own. *)
Theorem empty_cycle_is_no_content
        (classify : list string) (videoUrlTemplate : string) (includeShorts : bool)
        (w : World) (responses : list bilibiliFeedResponseJson)
        (errs : list (option error)) (perr : option error) :
  poolOutcome classify w = Some (responses, errs, perr) ->
  mergedRecords responses errs = [] ->
  exists e w',
    fetchBilibiliClassifyUploads classify videoUrlTemplate includeShorts w
    = Returned ([], Some e) w' /\
    errors_Is e errNoContent = true /\
    (perr = None -> e = errNoContent).
Proof.
  intros Hpool Hempty.
  destruct (fetch_run classify videoUrlTemplate includeShorts w _ _ _ Hpool) as (w' & Hrun).
  rewrite Hempty in Hrun. destruct perr as [p|].
  - eexists. exists w'. split; [exact Hrun|]. split; [reflexivity | discriminate].
  - exists errNoContent, w'. split; [exact Hrun|]. split; reflexivity.
Qed.

(** C3: when k of the N categories fail, 1 <= k < N, and the others
    contribute at least one record, the cycle returns errPartialContent
    with the count k, and its videos are exactly the records of the
    categories that succeeded, none dropped, ranked by views. *)
Theorem partial_cycle_keeps_successes
        (classify : list string) (videoUrlTemplate : string) (includeShorts : bool)
        (w : World) (responses : list bilibiliFeedResponseJson)
        (errs : list (option error)) (k : Z) :
  poolOutcome classify w = Some (responses, errs, None) ->
  failures errs = k ->
  1 <= k < Z.of_nat (List.length classify) ->
  mergedRecords responses errs <> [] ->
  exists videos w',
    fetchBilibiliClassifyUploads classify videoUrlTemplate includeShorts w
    = Returned (videos, Some (partialContent k)) w' /\
    errors_Is (partialContent k) errPartialContent = true /\
    Permutation (mergedRecords responses errs) videos /\
    sortedByViews videos.
Proof.
  intros Hpool Hk Hrange Hsome.
  destruct (fetch_run classify videoUrlTemplate includeShorts w _ _ _ Hpool) as (w' & Hrun).
  destruct (mergedRecords responses errs) as [|v vs] eqn:Hm; [now elim Hsome|].
  rewrite Hk in Hrun.
  replace (k >? 0) with true in Hrun by (symmetry; apply Z.gtb_lt; lia).
  exists (sortByView (v :: vs)), w'.
  split; [exact Hrun|]. split; [reflexivity|].
  split; [apply sortByView_permutes | apply sortByView_sorted].
Qed.
End Cycle.

Lemma empty_cycle_is_no_content_witness :
  exists e w',
    fetchBilibiliClassifyUploads ["all"; "weekly"] "" false (worldWith allFail)
    = Returned ([], Some e) w' /\
    errors_Is e errNoContent = true /\
    (@None error = None -> e = errNoContent).
Proof.
  apply (empty_cycle_is_no_content ["all"; "weekly"] "" false (worldWith allFail)
           [emptyResponse; emptyResponse]
           [Some (errorString "timeout"); Some (errorString "timeout")] None);
    reflexivity.
Defined.

Lemma unused_parameters_have_no_influence_witness :
  returned (fetchBilibiliClassifyUploads ["all"; "weekly"] "" false (worldWith firstOnly))
  = returned (fetchBilibiliClassifyUploads ["all"; "weekly"] "https://example.org/{VIDEO-ID}"
                                           true
                                           (mkWorld (fun _ => lastNanosecondOfWeek400) 5
                                                    firstOnly None [])).
Proof.
  apply (unused_parameters_have_no_influence
           ["all"; "weekly"] "" "https://example.org/{VIDEO-ID}" false true
           (worldWith firstOnly)).
  vm_compute. reflexivity.
Defined.

Lemma partial_cycle_keeps_successes_witness :
  exists videos w',
    fetchBilibiliClassifyUploads ["all"; "history"; "weekly"] "" false (worldWith firstOnly)
    = Returned (videos, Some (partialContent 1)) w' /\
    errors_Is (partialContent 1) errPartialContent = true /\
    Permutation (map recordOf [sampleEntry 100; sampleEntry 5; sampleEntry 300]) videos /\
    sortedByViews videos.
Proof.
  apply (partial_cycle_keeps_successes
           ["all"; "history"; "weekly"] "" false (worldWith firstOnly)
           [sampleResponse; emptyResponse; emptyResponse]
           [None; None; Some (errorString "timeout")] 1).
  - reflexivity.
  - reflexivity.
  - simpl. lia.
  - discriminate.
Defined.

(* ================================================================== *)
(** * One refresh of the widget *)

Section Refresh.
Context {sorter : SliceSort}.

(** [update], from the outcome of its fetch cycle. *)
Lemma update_run (ctx : unit) (widget : videosBilibiliWidget) (w w' : World)
      (videos : bilibiliVideoList) (err : option error) :
  fetchBilibiliClassifyUploads (Classify widget) (VideoUrlTemplate widget)
                               (IncludeShorts widget) w
  = Returned (videos, err) w' ->
  update ctx widget w
  = (let '(base, continue) :=
       Base.canContinueUpdateAfterHandlingErr err (widgetBase widget) in
     if negb continue then ret (setBase base widget)
     else
       kept <- (if Z.of_nat (List.length videos) >? Limit widget
                then slice_to videos (Limit widget)
                else ret videos) ;;
       ret (setVideos kept (setBase base widget))) w'.
Proof.
  intros Hfetch. unfold update.
  rewrite (bind_Returned _ _ _ _ _ Hfetch).
  destruct (Base.canContinueUpdateAfterHandlingErr err (widgetBase widget)).
  reflexivity.
Qed.

(** C1, amended: when every fetch succeeds and at least one entry comes
    back, the cycle is Complete (no error), its videos are the merged
    records ranked by views, descending, and [update], on a widget whose
    limit is not negative, stores their first [Limit] ones: at most
    [Limit] videos, still ranked. *)
Theorem complete_cycle_sorted_and_limited
        (ctx : unit) (widget : videosBilibiliWidget) (w : World)
        (responses : list bilibiliFeedResponseJson) (errs : list (option error)) :
  poolOutcome (Classify widget) w = Some (responses, errs, None) ->
  Forall (fun e => e = None) errs ->
  mergedRecords responses errs <> [] ->
  0 <= Limit widget ->
  exists videos w' widget',
    fetchBilibiliClassifyUploads (Classify widget) (VideoUrlTemplate widget)
                                 (IncludeShorts widget) w
    = Returned (videos, None) w' /\
    Permutation (mergedRecords responses errs) videos /\
    sortedByViews videos /\
    update ctx widget w = Returned widget' w' /\
    Videos widget' = firstn (Z.to_nat (Limit widget)) videos /\
    sortedByViews (Videos widget') /\
    Z.of_nat (List.length (Videos widget')) <= Limit widget.
Proof.
  intros Hpool Hok Hsome Hlimit.
  destruct (fetch_run (Classify widget) (VideoUrlTemplate widget) (IncludeShorts widget)
                      w _ _ _ Hpool) as (w' & Hrun).
  destruct (mergedRecords responses errs) as [|v vs] eqn:Hm; [now elim Hsome|].
  rewrite (failures_none errs Hok) in Hrun. cbn [Z.gtb Z.compare] in Hrun.
  set (videos := sortByView (v :: vs)) in *.
  pose proof (sortByView_sorted (v :: vs)) as Hsorted. fold videos in Hsorted.
  assert (Hstored :
            exists widget',
              update ctx widget w = Returned widget' w' /\
              Videos widget' = firstn (Z.to_nat (Limit widget)) videos).
  { rewrite (update_run ctx widget w w' videos None Hrun).
    cbn [Base.canContinueUpdateAfterHandlingErr negb].
    destruct (Z.of_nat (List.length videos) >? Limit widget) eqn:Hcmp.
    - apply Z.gtb_lt in Hcmp. unfold slice_to.
      replace ((0 <=? Limit widget) && (Limit widget <=? Z.of_nat (List.length videos)))
        with true
        by (symmetry; apply andb_true_iff; split; apply Z.leb_le; lia).
      eexists. split; reflexivity.
    - rewrite Z.gtb_ltb in Hcmp. apply Z.ltb_ge in Hcmp.
      eexists. split; [reflexivity|].
      cbn [setVideos Videos]. symmetry. apply firstn_all2. lia. }
  destruct Hstored as (widget' & Hupdate & Hvideos).
  exists videos, w', widget'.
  split; [exact Hrun|].
  split; [apply sortByView_permutes|].
  split; [exact Hsorted|].
  split; [exact Hupdate|].
  split; [exact Hvideos|].
  rewrite Hvideos. split.
  - now apply StronglySorted_firstn.
  - rewrite length_firstn. lia.
Qed.

(** C4: when a cycle ends Empty (the pool failed, or no category
    contributed a record: each one failed or returned no entry), the
    error is errNoContent, [update] returns without touching the stored
    videos, and the failure is kept as the widget's error. *)
Theorem empty_cycle_keeps_stored_videos
        (ctx : unit) (widget : videosBilibiliWidget) (w : World)
        (responses : list bilibiliFeedResponseJson) (errs : list (option error))
        (perr : option error) :
  poolOutcome (Classify widget) w = Some (responses, errs, perr) ->
  perr <> None \/ mergedRecords responses errs = [] ->
  exists e w' widget',
    fetchBilibiliClassifyUploads (Classify widget) (VideoUrlTemplate widget)
                                 (IncludeShorts widget) w
    = Returned ([], Some e) w' /\
    errors_Is e errNoContent = true /\
    update ctx widget w = Returned widget' w' /\
    Videos widget' = Videos widget /\
    Base.Error (widgetBase widget') = Some e.
Proof.
  intros Hpool Hempty.
  destruct (fetch_run (Classify widget) (VideoUrlTemplate widget) (IncludeShorts widget)
                      w _ _ _ Hpool) as (w' & Hrun).
  assert (Hfetch :
            exists e,
              fetchBilibiliClassifyUploads (Classify widget) (VideoUrlTemplate widget)
                                           (IncludeShorts widget) w
              = Returned ([], Some e) w' /\
              errors_Is e errNoContent = true /\
              errors_Is e errPartialContent = false).
  { destruct perr as [p|].
    - eexists. split; [exact Hrun|]. split; reflexivity.
    - destruct Hempty as [Hp|Hm]; [now elim Hp|].
      rewrite Hm in Hrun. eexists. split; [exact Hrun|]. split; reflexivity. }
  destruct Hfetch as (e & Hfetch & Hno & Hnotpartial).
  exists e, w'. eexists.
  split; [exact Hfetch|]. split; [exact Hno|].
  rewrite (update_run ctx widget w w' [] (Some e) Hfetch).
  cbn [Base.canContinueUpdateAfterHandlingErr]. rewrite Hnotpartial.
  cbn [negb]. split; [reflexivity|]. split; reflexivity.
Qed.

(** C5: a category whose fetch succeeds is never counted as failed,
    entries or not: the count a cycle reports is the number of
    categories less those that succeeded with entries and those that
    succeeded with none, and there is an error only when it is
    positive. *)
Theorem zero_entries_is_not_a_failure
        (classify : list string) (videoUrlTemplate : string) (includeShorts : bool)
        (w : World) (responses : list bilibiliFeedResponseJson)
        (errs : list (option error)) :
  poolOutcome classify w = Some (responses, errs, None) ->
  mergedRecords responses errs <> [] ->
  exists videos w',
    fetchBilibiliClassifyUploads classify videoUrlTemplate includeShorts w
    = Returned (videos,
                if failures errs >? 0 then Some (partialContent (failures errs)) else None)
               w' /\
    failures errs
    = Z.of_nat (List.length classify) - contributing responses errs
      - emptySuccesses responses errs.
Proof.
  intros Hpool Hsome.
  destruct (fetch_run classify videoUrlTemplate includeShorts w _ _ _ Hpool) as (w' & Hrun).
  destruct (mergedRecords responses errs) as [|v vs] eqn:Hm; [now elim Hsome|].
  exists (sortByView (v :: vs)), w'. split; [exact Hrun|].
  destruct (poolOutcome_run classify w) as (requests & w1 & _ & _ & Hpool' & Hlr & Hle).
  rewrite Hpool in Hpool'. injection Hpool' as Htasks _.
  rewrite <- Htasks in Hlr, Hle. simpl in Hlr, Hle.
  pose proof (failures_and_successes responses errs (eq_trans Hlr (eq_sym Hle))) as Hcount.
  rewrite Hle in Hcount. lia.
Qed.
End Refresh.

Lemma complete_cycle_sorted_and_limited_witness :
  exists videos w' widget',
    fetchBilibiliClassifyUploads ["all"; "history"] "" false (worldWith firstOnly)
    = Returned (videos, None) w' /\
    Permutation (map recordOf [sampleEntry 100; sampleEntry 5; sampleEntry 300]) videos /\
    sortedByViews videos /\
    update tt (sampleWidget ["all"; "history"] 2) (worldWith firstOnly)
    = Returned widget' w' /\
    Videos widget' = firstn 2 videos /\
    sortedByViews (Videos widget') /\
    Z.of_nat (List.length (Videos widget')) <= 2.
Proof.
  apply (complete_cycle_sorted_and_limited
           tt (sampleWidget ["all"; "history"] 2) (worldWith firstOnly)
           [sampleResponse; emptyResponse] [None; None]).
  - reflexivity.
  - repeat constructor.
  - discriminate.
  - simpl. lia.
Defined.

(** C1 as stated fails: "history" alone, fetched with success but with no
    entry, is a non-empty category list where every fetch succeeds, and
    the cycle is Empty, not Complete; [update] keeps the stale videos and
    records the error. *)
Lemma complete_cycle_fails_on_empty_payloads :
  ["history"] <> [] /\
  poolOutcome ["history"] (worldWith allEmpty) = Some ([emptyResponse], [None], None) /\
  Forall (fun e : option error => e = None) [None] /\
  fetchBilibiliClassifyUploads ["history"] "" false (worldWith allEmpty)
  = Returned ([], Some errNoContent) (mkWorld sampleClock 1 allEmpty None []) /\
  update tt (sampleWidget ["history"] 25) (worldWith allEmpty)
  = Returned (setBase (Base.mk "" 0 (Some errNoContent) None) (sampleWidget ["history"] 25))
             (mkWorld sampleClock 1 allEmpty None []).
Proof.
  split; [discriminate|].
  split; [reflexivity|].
  split; [repeat constructor|].
  split; reflexivity.
Qed.

Lemma empty_cycle_keeps_stored_videos_witness :
  exists e w' widget',
    fetchBilibiliClassifyUploads ["all"; "weekly"] "" false (worldWith allFail)
    = Returned ([], Some e) w' /\
    errors_Is e errNoContent = true /\
    update tt (sampleWidget ["all"; "weekly"] 25) (worldWith allFail) = Returned widget' w' /\
    Videos widget' = [recordOf (sampleEntry 7)] /\
    Base.Error (widgetBase widget') = Some e.
Proof.
  apply (empty_cycle_keeps_stored_videos
           tt (sampleWidget ["all"; "weekly"] 25) (worldWith allFail)
           [emptyResponse; emptyResponse]
           [Some (errorString "timeout"); Some (errorString "timeout")] None).
  - reflexivity.
  - right. reflexivity.
Defined.

Lemma zero_entries_is_not_a_failure_witness :
  exists videos w',
    fetchBilibiliClassifyUploads ["all"; "history"] "" false (worldWith firstOnly)
    = Returned (videos, None) w' /\
    0 = 2 - 1 - 1.
Proof.
  apply (zero_entries_is_not_a_failure
           ["all"; "history"] "" false (worldWith firstOnly)
           [sampleResponse; emptyResponse] [None; None]).
  - reflexivity.
  - discriminate.
Defined.

(* ================================================================== *)
(** * The resolver and the clock *)

Lemma list_ascii_of_string_append (a b : string) :
  list_ascii_of_string (a ++ b) = list_ascii_of_string a ++ list_ascii_of_string b.
Proof. induction a as [|c a IH]; simpl; [reflexivity | now rewrite IH]. Qed.

Lemma string_of_uint_chars (d : Decimal.uint) :
  Forall (fun c => isNumberChar c = true) (list_ascii_of_string (NilEmpty.string_of_uint d)).
Proof. induction d; simpl; constructor; (reflexivity || assumption). Qed.

Lemma formatInt_chars (n : Z) :
  Forall (fun c => isNumberChar c = true) (list_ascii_of_string (formatInt n)).
Proof.
  unfold formatInt, NilZero.string_of_int, NilZero.string_of_uint.
  destruct (Z.to_int n) as [d|d].
  - destruct d; try apply string_of_uint_chars. repeat constructor.
  - simpl. constructor; [reflexivity|].
    destruct d; try apply string_of_uint_chars. repeat constructor.
Qed.

Lemma dropNumberChars_app (l1 l2 : list ascii) :
  Forall (fun c => isNumberChar c = true) l1 ->
  dropNumberChars (l1 ++ l2) = dropNumberChars l2.
Proof.
  induction 1 as [|c l1 Hc _ IH]; simpl; [reflexivity|]. now rewrite Hc.
Qed.

(** Cutting the number off a target that ends with one gives back what
    stands before it, when that does not end like a number itself. *)
Lemma withoutWts_number (prefix : string) (n : Z) :
  dropNumberChars (rev (list_ascii_of_string prefix)) = rev (list_ascii_of_string prefix) ->
  withoutWts (prefix ++ formatInt n) = prefix.
Proof.
  intros Hprefix. unfold withoutWts.
  rewrite list_ascii_of_string_append, rev_app_distr.
  rewrite dropNumberChars_app by apply Forall_rev, formatInt_chars.
  rewrite Hprefix, rev_involutive. apply string_of_list_ascii_of_string.
Qed.

(** C7, amended: the resolver always returns and only reads the clock;
    its target depends on the category and on the readings of the clock
    alone; and for every category but "weekly", the targets of two
    resolutions are the same up to the value of wts. *)
Theorem resolver_depends_on_clock_only (classify : string) (w1 w2 : World) :
  exists url1 url2 w1' w2',
    getBilibiliFeedURL classify w1 = Returned url1 w1' /\
    getBilibiliFeedURL classify w2 = Returned url2 w2' /\
    sameNetwork w1 w1' /\ sameNetwork w2 w2' /\
    (clock w1 (reads w1) = clock w2 (reads w2) ->
     clock w1 (S (reads w1)) = clock w2 (S (reads w2)) ->
     url1 = url2) /\
    (classify <> "weekly" -> withoutWts url1 = withoutWts url2).
Proof.
  unfold getBilibiliFeedURL, bind, time_Now, ret.
  destruct (String.eqb classify "all");
    [|destruct (String.eqb_spec classify "weekly");
      [|destruct (String.eqb classify "history")]];
    do 4 eexists;
    (split; [reflexivity|]); (split; [reflexivity|]);
    (split; [repeat split|]); (split; [repeat split|]);
    cbn [Sprintf Ascii.eqb Bool.eqb formatArg Unix UTC unixNano append clock reads];
    rewrite ?append_empty_r;
    (split; [intros Hfirst Hsecond; rewrite ?Hfirst, ?Hsecond; reflexivity|]);
    intros Hweekly; try contradiction;
    match goal with
    | |- withoutWts ?u1 = withoutWts ?u2 =>
        match u1 with
        | context [formatInt ?n1] =>
            match u2 with
            | context [formatInt ?n2] =>
                match eval pattern (formatInt n1) in u1 with
                | ?f _ =>
                    let prefix := eval cbv in (withoutWts (f EmptyString)) in
                    change (withoutWts (prefix ++ formatInt n1)
                            = withoutWts (prefix ++ formatInt n2))
                end
            end
        end
    end;
    rewrite !withoutWts_number by reflexivity; reflexivity.
Qed.

Lemma resolver_depends_on_clock_only_witness :
  exists url1 url2 w1' w2',
    getBilibiliFeedURL "all" (worldWith allSucceed) = Returned url1 w1' /\
    getBilibiliFeedURL "all" (mkWorld (fun _ => 1742831880 * Second) 0 allFail None [])
    = Returned url2 w2' /\
    sameNetwork (worldWith allSucceed) w1' /\
    sameNetwork (mkWorld (fun _ => 1742831880 * Second) 0 allFail None []) w2' /\
    (sampleClock 0%nat = 1742831880 * Second ->
     sampleClock 1%nat = 1742831880 * Second -> url1 = url2) /\
    ("all" <> "weekly" -> withoutWts url1 = withoutWts url2).
Proof.
  exact (resolver_depends_on_clock_only
           "all" (worldWith allSucceed)
           (mkWorld (fun _ => 1742831880 * Second) 0 allFail None [])).
Defined.

(** C7 as stated fails: one week apart, the two targets of "weekly" differ
    in the parameter number as well, not only in wts. *)
Lemma weekly_target_changes_beyond_wts :
  getBilibiliFeedURL "weekly" (worldWith allSucceed)
  = Returned "https://api.bilibili.com/x/web-interface/popular/series/one?number=312&wts=1742227080"
             (mkWorld sampleClock 2 allSucceed None []) /\
  getBilibiliFeedURL "weekly" (mkWorld (fun _ => 1742831880 * Second) 0 allSucceed None [])
  = Returned "https://api.bilibili.com/x/web-interface/popular/series/one?number=313&wts=1742831880"
             (mkWorld (fun _ => 1742831880 * Second) 2 allSucceed None []) /\
  withoutWts "https://api.bilibili.com/x/web-interface/popular/series/one?number=312&wts=1742227080"
  <> withoutWts "https://api.bilibili.com/x/web-interface/popular/series/one?number=313&wts=1742831880".
Proof.
  split; [reflexivity|]. split; [reflexivity|].
  vm_compute. discriminate.
Qed.

(* ================================================================== *)
(** * The period of "weekly" *)

(** The reference date of "weekly" is 2019-03-22 00:00:00 UTC. *)
Lemma weekly_reference_date :
  time_Date 2019 March 22 0 0 0 0 = mkTime (1553212800 * Second) UTCLocation.
Proof. reflexivity. Qed.

(** At the reading of the comment above [fetchBilibiliClassifyUploads]
    (wts=1742227080), the code gives the period of that comment, 312,
    the whole weeks elapsed. *)
Lemma weekly_period_of_the_comment :
  getBilibiliFeedURL "weekly" (worldWith allSucceed)
  = Returned "https://api.bilibili.com/x/web-interface/popular/series/one?number=312&wts=1742227080"
             (mkWorld sampleClock 2 allSucceed None []) /\
  wholeWeeksBetween (time_Date 2019 March 22 0 0 0 0) (mkTime (sampleClock 1%nat) UTCLocation)
  = 312.
Proof. split; reflexivity. Qed.

(** C8, at an input where the code departs from it: one nanosecond before
    the end of the 400th week, 399 whole weeks have elapsed, and the
    target carries the period 400.  [Hours] rounds 67199 hours and
    3599999999999 nanoseconds to the float64 67200, so that
    [int(duration.Hours() / 24)] is 2800 days, one day early. *)
Theorem weekly_period_rounds_up_before_boundary :
  wholeWeeksBetween (time_Date 2019 March 22 0 0 0 0)
                    (mkTime lastNanosecondOfWeek400 UTCLocation) = 399 /\
  Sub (mkTime lastNanosecondOfWeek400 UTCLocation) (time_Date 2019 March 22 0 0 0 0)
  = 67199 * Hour + 3599999999999 /\
  Hours (67199 * Hour + 3599999999999) = 67200%float /\
  getBilibiliFeedURL "weekly" (mkWorld (fun _ => lastNanosecondOfWeek400) 0 allSucceed None [])
  = Returned "https://api.bilibili.com/x/web-interface/popular/series/one?number=400&wts=1795132799"
             (mkWorld (fun _ => lastNanosecondOfWeek400) 2 allSucceed None []).
Proof.
  split; [reflexivity|]. split; [reflexivity|]. split; [reflexivity|]. reflexivity.
Qed.

(* ================================================================== *)
(** * Remarks *)

(** The two versions of the file on the same payload, with views 100, 5
    and 300: the one with [sortByView] ranks it, the other one, whose
    sort is commented out, keeps the order of the payload. *)
Lemma other_version_does_not_rank :
  option_map (fun r => map Url (fst r))
             (returned (fetchBilibiliClassifyUploads ["all"] "" false (worldWith allNamed)))
  = Some ["https://www.bilibili.com/video/BV3"; "https://www.bilibili.com/video/BV1";
          "https://www.bilibili.com/video/BV2"] /\
  option_map (fun r => map WidgetVideosBilibili.Url (fst r))
             (returned (WidgetVideosBilibili.fetchBilibiliClassifyUploads
                          ["all"] "" false (worldWith allNamed)))
  = Some ["https://www.bilibili.com/video/BV1"; "https://www.bilibili.com/video/BV2";
          "https://www.bilibili.com/video/BV3"].
Proof. split; vm_compute; reflexivity. Qed.

(** With a negative limit, which [initialize] rules out, [update] panics
    on [videos[:widget.Limit]]. *)
Lemma update_panics_on_negative_limit :
  update tt (sampleWidget ["all"] (-1)) (worldWith allSucceed)
  = Panicked "slice bounds out of range".
Proof. vm_compute. reflexivity. Qed.

(** The diagnostics of a cycle name the categories that failed: here
    "weekly", the third of three. *)
Lemma diagnostics_name_the_failed_category :
  match fetchBilibiliClassifyUploads ["all"; "history"; "weekly"] "" false
                                     (worldWith firstOnly) with
  | Returned _ w' => logged w'
  | Panicked _ => []
  end
  = [mkLog "Failed to fetch bilibi" "weekly" (errorString "timeout")].
Proof. vm_compute. reflexivity. Qed.

(* ================================================================== *)
(** * Further properties: the configuration *)

Lemma initialize_valid (widget : videosBilibiliWidget) :
  validConfiguration (fst (initialize widget)).
Proof.
  destruct widget as [b vs tmpl style after rows classify limit shorts].
  unfold validConfiguration, initialize, setBase, setLimit, setCollapseAfterRows,
    setCollapseAfter.
  cbn [fst widgetBase Videos VideoUrlTemplate Style CollapseAfter CollapseAfterRows
       Classify Limit IncludeShorts].
  destruct (Z.leb_spec limit 0);
    cbn [widgetBase Videos VideoUrlTemplate Style CollapseAfter CollapseAfterRows
         Classify Limit IncludeShorts];
    destruct (Z.eqb_spec rows 0); destruct (Z.ltb_spec rows (-1));
    cbn [orb widgetBase Videos VideoUrlTemplate Style CollapseAfter CollapseAfterRows
         Classify Limit IncludeShorts];
    destruct (Z.eqb_spec after 0); destruct (Z.ltb_spec after (-1));
    cbn [orb fst widgetBase Videos VideoUrlTemplate Style CollapseAfter CollapseAfterRows
         Classify Limit IncludeShorts];
    repeat split; lia.
Qed.

(** X1: whatever the configuration, [initialize] leaves a valid one: a
    positive limit, and thresholds that are -1 or positive. *)
Theorem initialize_gives_valid_configuration (widget : videosBilibiliWidget) :
  0 < Limit (fst (initialize widget)) /\
  (CollapseAfter (fst (initialize widget)) = -1 \/ 0 < CollapseAfter (fst (initialize widget)))
  /\
  (CollapseAfterRows (fst (initialize widget)) = -1
   \/ 0 < CollapseAfterRows (fst (initialize widget))).
Proof. exact (initialize_valid widget). Qed.

Lemma initialize_frame (widget : videosBilibiliWidget) :
  Videos (fst (initialize widget)) = Videos widget /\
  Classify (fst (initialize widget)) = Classify widget /\
  Style (fst (initialize widget)) = Style widget /\
  VideoUrlTemplate (fst (initialize widget)) = VideoUrlTemplate widget /\
  IncludeShorts (fst (initialize widget)) = IncludeShorts widget.
Proof.
  destruct widget as [b vs tmpl style after rows classify limit shorts].
  unfold initialize, setBase, setLimit, setCollapseAfterRows, setCollapseAfter.
  cbn [fst widgetBase Videos VideoUrlTemplate Style CollapseAfter CollapseAfterRows
       Classify Limit IncludeShorts].
  destruct (limit <=? 0);
    cbn [widgetBase Videos VideoUrlTemplate Style CollapseAfter CollapseAfterRows
         Classify Limit IncludeShorts];
    destruct ((rows =? 0) || (rows <? -1));
    cbn [widgetBase Videos VideoUrlTemplate Style CollapseAfter CollapseAfterRows
         Classify Limit IncludeShorts];
    destruct ((after =? 0) || (after <? -1)); repeat split.
Qed.

(** X2: [initialize] never touches the stored videos, the categories, the
    style, the template or the flag, and it changes nothing of a valid
    configuration: a positive limit and thresholds that are -1 or
    positive stay as they are. *)
Theorem initialize_keeps_valid_configuration (widget : videosBilibiliWidget) :
  (Videos (fst (initialize widget)) = Videos widget /\
   Classify (fst (initialize widget)) = Classify widget /\
   Style (fst (initialize widget)) = Style widget /\
   VideoUrlTemplate (fst (initialize widget)) = VideoUrlTemplate widget /\
   IncludeShorts (fst (initialize widget)) = IncludeShorts widget) /\
  (validConfiguration widget -> sameConfiguration widget (fst (initialize widget))).
Proof.
  split; [apply initialize_frame|].
  destruct widget as [b vs tmpl style after rows classify limit shorts].
  unfold validConfiguration, sameConfiguration, initialize, setBase, setLimit,
    setCollapseAfterRows, setCollapseAfter.
  cbn [fst widgetBase Videos VideoUrlTemplate Style CollapseAfter CollapseAfterRows
       Classify Limit IncludeShorts].
  intros (Hlimit & Hafter & Hrows).
  destruct (Z.leb_spec limit 0); [lia|].
  cbn [widgetBase Videos VideoUrlTemplate Style CollapseAfter CollapseAfterRows
       Classify Limit IncludeShorts].
  destruct (Z.eqb_spec rows 0); [lia|]. destruct (Z.ltb_spec rows (-1)); [lia|].
  cbn [orb widgetBase Videos VideoUrlTemplate Style CollapseAfter CollapseAfterRows
       Classify Limit IncludeShorts].
  destruct (Z.eqb_spec after 0); [lia|]. destruct (Z.ltb_spec after (-1)); [lia|].
  cbn [orb fst widgetBase Videos VideoUrlTemplate Style CollapseAfter CollapseAfterRows
       Classify Limit IncludeShorts].
  repeat split.
Qed.

Lemma initialize_keeps_valid_configuration_witness :
  sameConfiguration (setCollapseAfter 7 (sampleWidget ["all"] 10))
                    (fst (initialize (setCollapseAfter 7 (sampleWidget ["all"] 10)))).
Proof.
  apply (initialize_keeps_valid_configuration (setCollapseAfter 7 (sampleWidget ["all"] 10))).
  unfold validConfiguration. simpl. lia.
Defined.

Lemma initialize_base (widget : videosBilibiliWidget) :
  widgetBase (fst (initialize widget))
  = Base.withCacheDuration Hour (Base.withTitle "Videos" (widgetBase widget)).
Proof.
  destruct widget as [b vs tmpl style after rows classify limit shorts].
  unfold initialize, setBase, setLimit, setCollapseAfterRows, setCollapseAfter.
  cbn [fst widgetBase Videos VideoUrlTemplate Style CollapseAfter CollapseAfterRows
       Classify Limit IncludeShorts].
  destruct (limit <=? 0);
    cbn [widgetBase Videos VideoUrlTemplate Style CollapseAfter CollapseAfterRows
         Classify Limit IncludeShorts];
    destruct ((rows =? 0) || (rows <? -1));
    cbn [widgetBase Videos VideoUrlTemplate Style CollapseAfter CollapseAfterRows
         Classify Limit IncludeShorts];
    destruct ((after =? 0) || (after <? -1)); reflexivity.
Qed.

Lemma initialize_of_valid (widget : videosBilibiliWidget) :
  validConfiguration widget ->
  initialize widget
  = (setBase (Base.withCacheDuration Hour (Base.withTitle "Videos" (widgetBase widget)))
             widget, None).
Proof.
  destruct widget as [b vs tmpl style after rows classify limit shorts].
  unfold validConfiguration, initialize, setBase, setLimit, setCollapseAfterRows,
    setCollapseAfter.
  cbn [fst widgetBase Videos VideoUrlTemplate Style CollapseAfter CollapseAfterRows
       Classify Limit IncludeShorts].
  intros (Hlimit & Hafter & Hrows).
  replace (limit <=? 0) with false by (symmetry; apply Z.leb_gt; lia).
  cbn [widgetBase Videos VideoUrlTemplate Style CollapseAfter CollapseAfterRows
       Classify Limit IncludeShorts].
  replace (rows =? 0) with false by (symmetry; apply Z.eqb_neq; lia).
  replace (rows <? -1) with false by (symmetry; apply Z.ltb_ge; lia).
  cbn [orb widgetBase Videos VideoUrlTemplate Style CollapseAfter CollapseAfterRows
       Classify Limit IncludeShorts].
  replace (after =? 0) with false by (symmetry; apply Z.eqb_neq; lia).
  replace (after <? -1) with false by (symmetry; apply Z.ltb_ge; lia).
  reflexivity.
Qed.

(** X3: [initialize] is idempotent on the configuration and the stored
    videos: a second call changes none of them. *)
Theorem initialize_idempotent (widget : videosBilibiliWidget) :
  sameConfiguration (fst (initialize widget)) (fst (initialize (fst (initialize widget)))) /\
  Videos (fst (initialize (fst (initialize widget)))) = Videos (fst (initialize widget)) /\
  snd (initialize (fst (initialize widget))) = None.
Proof.
  rewrite (initialize_of_valid _ (initialize_valid widget)).
  cbn [fst snd]. split; [repeat split|]. split; reflexivity.
Qed.

(* ================================================================== *)
(** * Further properties: the resolver *)

Lemma append_assoc (a b c : string) : ((a ++ b) ++ c)%string = (a ++ b ++ c)%string.
Proof. induction a as [|x a IH]; simpl; [reflexivity | now rewrite IH]. Qed.

Lemma advance_advance (m n : nat) (w : World) :
  advance m (advance n w) = advance (m + n) w.
Proof. unfold advance. simpl. now rewrite Nat.add_assoc. Qed.

(** X4: whatever the category, the resolver returns, takes one reading of
    the clock (two for "weekly") and changes nothing else of the world,
    and its target ends with the parameter wts, the whole seconds of the
    first reading. *)
Theorem target_carries_the_seconds_of_the_first_reading (classify : string) (w : World) :
  exists base,
    getBilibiliFeedURL classify w
    = Returned (base ++ "wts=" ++ formatInt (clock w (reads w) / Second))%string
               (advance (readsOf classify) w).
Proof.
  unfold getBilibiliFeedURL, bind, time_Now, ret, readsOf, advance.
  destruct (String.eqb_spec classify "all") as [Hall|Hall].
  - subst classify.
    exists "https://api.bilibili.com/x/web-interface/popular?ps=20&pn=1&".
    cbn [String.eqb Ascii.eqb Bool.eqb Sprintf formatArg Unix unixNano append clock reads
         taskOutcome poolError logged Nat.add].
    rewrite append_empty_r. reflexivity.
  - destruct (String.eqb classify "weekly").
    + exists ("https://api.bilibili.com/x/web-interface/popular/series/one?number="
                ++ formatInt (weeklyPeriodAt (clock w (S (reads w)))) ++ "&")%string.
      cbn [Sprintf Ascii.eqb Bool.eqb formatArg Unix unixNano append clock reads
           taskOutcome poolError logged Nat.add].
      rewrite append_empty_r, !append_assoc. reflexivity.
    + destruct (String.eqb classify "history").
      * exists "https://api.bilibili.com/x/web-interface/popular/precious?page_size=100&page=1&".
        cbn [Sprintf Ascii.eqb Bool.eqb formatArg Unix unixNano append clock reads
             taskOutcome poolError logged Nat.add].
        rewrite append_empty_r. reflexivity.
      * exists "https://api.bilibili.com/x/web-interface/ranking/v2?rid=0&type=all&".
        cbn [Sprintf Ascii.eqb Bool.eqb formatArg Unix unixNano append clock reads
             taskOutcome poolError logged Nat.add].
        rewrite append_empty_r. reflexivity.
Qed.

Lemma getBilibiliFeedURL_target (classify : string) (w w' : World) (url : string) :
  getBilibiliFeedURL classify w = Returned url w' ->
  url = match endpointOf classify with
        | Popular =>
            ("https://api.bilibili.com/x/web-interface/popular?ps=20&pn=1&wts="
               ++ formatInt (clock w (reads w) / Second))%string
        | Series =>
            ("https://api.bilibili.com/x/web-interface/popular/series/one?number="
               ++ formatInt (weeklyPeriodAt (clock w (S (reads w))))
               ++ "&wts=" ++ formatInt (clock w (reads w) / Second))%string
        | Precious =>
            ("https://api.bilibili.com/x/web-interface/popular/precious?page_size=100&page=1&wts="
               ++ formatInt (clock w (reads w) / Second))%string
        | Ranking =>
            ("https://api.bilibili.com/x/web-interface/ranking/v2?rid=0&type=all&wts="
               ++ formatInt (clock w (reads w) / Second))%string
        end.
Proof.
  unfold getBilibiliFeedURL, endpointOf, bind, time_Now, ret.
  destruct (String.eqb classify "all");
    [|destruct (String.eqb classify "weekly");
      [|destruct (String.eqb classify "history")]];
    intros H; injection H as H _; subst url;
    cbn [Sprintf Ascii.eqb Bool.eqb formatArg Unix unixNano append clock reads];
    rewrite ?append_empty_r; reflexivity.
Qed.

(** X5: categories that select different endpoints never resolve to the
    same target, whatever the readings of the clock. *)
Theorem different_endpoints_give_different_targets
        (classify1 classify2 : string) (w1 w2 w1' w2' : World) (url1 url2 : string) :
  getBilibiliFeedURL classify1 w1 = Returned url1 w1' ->
  getBilibiliFeedURL classify2 w2 = Returned url2 w2' ->
  endpointOf classify1 <> endpointOf classify2 ->
  url1 <> url2.
Proof.
  intros H1 H2 Hkinds Hsame.
  apply getBilibiliFeedURL_target in H1, H2.
  rewrite H1, H2 in Hsame.
  destruct (endpointOf classify1), (endpointOf classify2);
    try (now elim Hkinds); cbn [append] in Hsame; discriminate Hsame.
Qed.

Lemma different_endpoints_give_different_targets_witness :
  "https://api.bilibili.com/x/web-interface/popular?ps=20&pn=1&wts=1742227080"
  <> "https://api.bilibili.com/x/web-interface/popular/precious?page_size=100&page=1&wts=1742227080".
Proof.
  apply (different_endpoints_give_different_targets
           "all" "history" (worldWith allSucceed) (worldWith allFail)
           (advance 1 (worldWith allSucceed)) (advance 1 (worldWith allFail))).
  - reflexivity.
  - reflexivity.
  - discriminate.
Defined.

Lemma periodsExactFrom_sound (count : nat) :
  forall start : Z,
    periodsExactFrom count start = true ->
    forall d : Z, start <= d < start + Z.of_nat count ->
      weeklyPeriodAt (daysAfterReference d) = d / 7.
Proof.
  induction count as [|n IH]; intros start Hall d Hrange; [simpl in Hrange; lia|].
  cbn [periodsExactFrom] in Hall.
  destruct (weeklyPeriodAt (daysAfterReference start) =? start / 7) eqn:Hstart;
    [|discriminate].
  destruct (Z.eq_dec d start) as [Heq|Hne].
  - subst d. now apply Z.eqb_eq.
  - apply (IH (start + 1) Hall). rewrite Nat2Z.inj_succ in Hrange. lia.
Qed.

(** The 36525 whole days of the first hundred years, one by one. *)
Lemma periodsExact_hundred_years : periodsExactFrom (Z.to_nat 36525) 0 = true.
Proof. vm_cast_no_check (eq_refl true). Qed.

(** X6: at every whole day of the first hundred years after the reference
    date (36525 days, into 2119), and so at the start of every week of
    these years, the period that "weekly" puts in its target is the
    number of whole weeks elapsed. *)
Theorem weekly_period_exact_on_whole_days (d : Z) (w : World) :
  0 <= d <= 36524 ->
  clock w (S (reads w)) = daysAfterReference d ->
  exists w',
    getBilibiliFeedURL "weekly" w
    = Returned ("https://api.bilibili.com/x/web-interface/popular/series/one?number="
                  ++ formatInt (d / 7)
                  ++ "&wts=" ++ formatInt (clock w (reads w) / Second))%string w'.
Proof.
  intros Hrange Hclock.
  destruct (getBilibiliFeedURL_returns "weekly" w) as (url & w' & Hrun & _).
  exists w'. rewrite Hrun. f_equal.
  apply getBilibiliFeedURL_target in Hrun. rewrite Hrun.
  change (endpointOf "weekly") with Series. cbv iota.
  rewrite Hclock.
  rewrite (periodsExactFrom_sound _ 0 periodsExact_hundred_years d);
    [reflexivity|].
  rewrite Z2Nat.id; lia.
Qed.

Lemma weekly_period_exact_on_whole_days_witness :
  exists w',
    getBilibiliFeedURL "weekly" (mkWorld (fun _ => daysAfterReference 2800) 0 allFail None [])
    = Returned "https://api.bilibili.com/x/web-interface/popular/series/one?number=400&wts=1795132800"
               w'.
Proof.
  apply (weekly_period_exact_on_whole_days
           2800 (mkWorld (fun _ => daysAfterReference 2800) 0 allFail None [])).
  - lia.
  - reflexivity.
Defined.

(* ================================================================== *)
(** * Further properties: the requests *)

Lemma getBilibiliFeedURL_advances (classify : string) (w : World) :
  exists url, getBilibiliFeedURL classify w = Returned url (advance (readsOf classify) w).
Proof.
  unfold getBilibiliFeedURL, bind, time_Now, ret, readsOf, advance.
  destruct (String.eqb_spec classify "all") as [Hall|Hall].
  - subst classify. eexists. reflexivity.
  - destruct (String.eqb classify "weekly"); [eexists; reflexivity|].
    destruct (String.eqb classify "history"); eexists; reflexivity.
Qed.

Lemma buildRequests_exact (classify : list string) :
  forall requests w,
  exists more,
    buildRequests classify requests w
    = Returned (requests ++ more) (advance (readsOfAll classify) w) /\
    Forall2 requestFor classify more.
Proof.
  induction classify as [|c rest IH]; intros requests w.
  - exists []. split; [|constructor].
    cbn [buildRequests readsOfAll]. rewrite app_nil_r. unfold ret, advance.
    now destruct w.
  - destruct (getBilibiliFeedURL_advances c w) as (url & Hurl).
    cbn [buildRequests readsOfAll].
    rewrite (bind_Returned _ _ _ _ _ Hurl).
    match goal with |- context [buildRequests rest (requests ++ [?r])] =>
      destruct (IH (requests ++ [r]) (advance (readsOf c) w)) as (more & Hrun & Hall);
      exists (r :: more)
    end.
    rewrite Hrun, <- app_assoc, advance_advance. split; [reflexivity|].
    constructor; [|exact Hall].
    split; [reflexivity|]. split; [reflexivity|].
    exists w, (advance (readsOf c) w). exact Hurl.
Qed.

(** X7: the first loop never panics and builds one request per category,
    in order: a GET of the category's target with the User-Agent and
    Referer headers, and nothing else; it only reads the clock, once per
    category and once more per "weekly". *)
Theorem one_request_per_category (classify : list string) (w : World) :
  exists requests,
    buildRequests classify [] w = Returned requests (advance (readsOfAll classify) w) /\
    Forall2 requestFor classify requests /\
    List.length requests = List.length classify.
Proof.
  destruct (buildRequests_exact classify [] w) as (requests & Hrun & Hall).
  exists requests. split; [exact Hrun|]. split; [exact Hall|].
  symmetry. apply (Forall2_length Hall).
Qed.

(* ================================================================== *)
(** * Further properties: the fetch cycle *)

Lemma mergedRecords_entries (responses : list bilibiliFeedResponseJson) :
  forall errs, mergedRecords responses errs = map recordOf (mergedEntries responses errs).
Proof.
  induction responses as [|r rest IH]; intros [|[e|] errs]; cbn [mergedRecords mergedEntries];
    try reflexivity; [apply IH|].
  rewrite map_app, IH. reflexivity.
Qed.

Lemma contributing_of_records (responses : list bilibiliFeedResponseJson) :
  forall errs, mergedRecords responses errs <> [] -> 1 <= contributing responses errs.
Proof.
  induction responses as [|r rest IH]; intros [|[e|] errs] Hsome;
    cbn [mergedRecords contributing] in *; try (now elim Hsome); [now apply IH|].
  destruct (Json.List (Data r)) as [|v vs].
  - now apply IH.
  - assert (0 <= contributing rest errs); [|lia].
    clear. revert errs.
    induction rest as [|r' rest IH']; intros [|[e|] errs]; cbn [contributing]; try lia;
      [apply IH'|].
    specialize (IH' errs). destruct (Json.List (Data r')); lia.
Qed.

Lemma diagnostics_length (classify : list string) :
  forall errs : list (option error),
    List.length classify = List.length errs ->
    Z.of_nat (List.length (diagnostics classify errs)) = failures errs.
Proof.
  induction classify as [|c rest IH]; intros [|[e|] errs] Hlen; try discriminate;
    [reflexivity| |]; injection Hlen as Hlen; specialize (IH errs Hlen);
    cbn [diagnostics failures List.length]; lia.
Qed.

Section FurtherCycle.
Context {sorter : SliceSort}.

(** One cycle, with the world it leaves. *)
Lemma fetch_exact (classify : list string) (videoUrlTemplate : string) (includeShorts : bool)
      (w : World) :
  exists responses errs,
    poolOutcome classify w = Some (responses, errs, poolError w) /\
    List.length responses = List.length classify /\
    List.length errs = List.length classify /\
    fetchBilibiliClassifyUploads classify videoUrlTemplate includeShorts w
    = match poolError w with
      | Some e =>
          Returned ([], Some (fmt_Errorf "%w: %v" errNoContent (OperandErr e)))
                   (advance (readsOfAll classify) w)
      | None =>
          Returned
            match mergedRecords responses errs with
            | [] => ([], Some errNoContent)
            | _ :: _ =>
                (sortByView (mergedRecords responses errs),
                 if failures errs >? 0 then Some (partialContent (failures errs)) else None)
            end
            (logMore (diagnostics classify errs) (advance (readsOfAll classify) w))
      end.
Proof.
  destruct (buildRequests_exact classify [] w) as (requests & Hreq & Hall).
  cbn [app] in Hreq.
  destruct (runTasks (taskOutcome w) 0 requests) as [responses errs] eqn:Htasks.
  destruct (runTasks_lengths _ _ _ _ _ Htasks) as [Hlr Hle].
  rewrite <- (Forall2_length Hall) in Hlr, Hle.
  exists responses, errs.
  split.
  { unfold poolOutcome. rewrite (bind_Returned _ _ _ _ _ Hreq).
    unfold workerPoolDo.
    change (taskOutcome (advance (readsOfAll classify) w)) with (taskOutcome w).
    change (poolError (advance (readsOfAll classify) w)) with (poolError w).
    now rewrite Htasks. }
  split; [exact Hlr|]. split; [exact Hle|].
  unfold fetchBilibiliClassifyUploads.
  rewrite (bind_Returned _ _ _ _ _ Hreq).
  unfold bind at 1. unfold workerPoolDo.
  change (taskOutcome (advance (readsOfAll classify) w)) with (taskOutcome w).
  change (poolError (advance (readsOfAll classify) w)) with (poolError w).
  rewrite Htasks.
  destruct (poolError w) as [e|]; [reflexivity|].
  pose proof (collectResponses_run responses errs classify [] [] [] 0
                                   (advance (readsOfAll classify) w)
                                   eq_refl (eq_trans Hle (eq_sym Hlr)) (eq_sym Hlr)) as Hrun.
  cbn [app List.length] in Hrun.
  rewrite (bind_Returned _ _ _ _ _ Hrun).
  rewrite length_zero_iff.
  destruct (mergedRecords responses errs) as [|v vs] eqn:Hm; [reflexivity|].
  replace (0 + failures errs) with (failures errs) by lia.
  destruct (failures errs >? 0); reflexivity.
Qed.
End FurtherCycle.

Section CycleOutcomes.
Context {sorter : SliceSort}.

(** Every cycle returns, with ranked videos and one of three outcomes. *)
Lemma every_cycle_is_empty_complete_or_partial_lemma
        (classify : list string) (videoUrlTemplate : string) (includeShorts : bool)
        (w : World) :
  exists videos err w',
    fetchBilibiliClassifyUploads classify videoUrlTemplate includeShorts w
    = Returned (videos, err) w' /\
    sortedByViews videos /\
    ((videos = [] /\
      exists e, err = Some e /\ errors_Is e errNoContent = true /\
                errors_Is e errPartialContent = false)
     \/ (videos <> [] /\ err = None)
     \/ (videos <> [] /\
         exists k, err = Some (partialContent k) /\
                   1 <= k < Z.of_nat (List.length classify) /\
                   errors_Is (partialContent k) errNoContent = false)).
Proof.
  destruct (fetch_exact classify videoUrlTemplate includeShorts w)
    as (responses & errs & _ & Hlr & Hle & Hrun).
  rewrite Hrun. destruct (poolError w) as [e|].
  - do 3 eexists. split; [reflexivity|]. split; [constructor|].
    left. split; [reflexivity|]. eexists. split; [reflexivity|]. split; reflexivity.
  - destruct (mergedRecords responses errs) as [|v vs] eqn:Hm.
    + do 3 eexists. split; [reflexivity|]. split; [constructor|].
      left. split; [reflexivity|]. eexists. split; [reflexivity|]. split; reflexivity.
    + assert (Hsome : sortByView (v :: vs) <> []).
      { intros Hnil. pose proof (sortByView_permutes (v :: vs)) as Hperm.
        rewrite Hnil in Hperm. apply Permutation_sym, Permutation_nil in Hperm.
        discriminate. }
      do 3 eexists. split; [reflexivity|]. split; [apply sortByView_sorted|].
      right. destruct (failures errs >? 0) eqn:Hfailed.
      * right. split; [exact Hsome|]. exists (failures errs).
        split; [reflexivity|]. split; [|reflexivity].
        apply Z.gtb_lt in Hfailed.
        pose proof (failures_and_successes responses errs (eq_trans Hlr (eq_sym Hle))).
        assert (1 <= contributing responses errs)
          by (apply contributing_of_records; rewrite Hm; discriminate).
        assert (0 <= emptySuccesses responses errs).
        { clear. revert errs.
          induction responses as [|r rest IH]; intros [|[e|] errs]; cbn [emptySuccesses];
            try lia; [apply IH|].
          specialize (IH errs). destruct (Json.List (Data r)); lia. }
        lia.
      * left. split; [exact Hsome | reflexivity].
Qed.

(** X8: in every world and for every category list, a cycle returns (it
    never indexes out of range) with videos ranked by views and exactly
    one of three outcomes: Empty, no video and an error that is
    errNoContent and not errPartialContent; Complete, some videos and no
    error; Partial, some videos and errPartialContent with a count k of
    failed categories, 1 <= k < N. *)
Theorem every_cycle_is_empty_complete_or_partial
        (classify : list string) (videoUrlTemplate : string) (includeShorts : bool)
        (w : World) :
  exists videos err w',
    fetchBilibiliClassifyUploads classify videoUrlTemplate includeShorts w
    = Returned (videos, err) w' /\
    sortedByViews videos /\
    ((videos = [] /\
      exists e, err = Some e /\ errors_Is e errNoContent = true /\
                errors_Is e errPartialContent = false)
     \/ (videos <> [] /\ err = None)
     \/ (videos <> [] /\
         exists k, err = Some (partialContent k) /\
                   1 <= k < Z.of_nat (List.length classify) /\
                   errors_Is (partialContent k) errNoContent = false)).
Proof.
  exact (every_cycle_is_empty_complete_or_partial_lemma
           classify videoUrlTemplate includeShorts w).
Qed.

(** X9: when the worker pool reports an error of its own, the cycle
    drops every response: it returns no video and that error wrapped
    under errNoContent, and logs nothing. *)
Theorem pool_error_discards_the_cycle
        (classify : list string) (videoUrlTemplate : string) (includeShorts : bool)
        (w : World) (e : error) :
  poolError w = Some e ->
  fetchBilibiliClassifyUploads classify videoUrlTemplate includeShorts w
  = Returned ([], Some (fmt_Errorf "%w: %v" errNoContent (OperandErr e)))
             (advance (readsOfAll classify) w) /\
  errors_Is (fmt_Errorf "%w: %v" errNoContent (OperandErr e)) errNoContent = true /\
  logged (advance (readsOfAll classify) w) = logged w.
Proof.
  intros Hperr.
  destruct (fetch_exact classify videoUrlTemplate includeShorts w)
    as (responses & errs & _ & _ & _ & Hrun).
  rewrite Hperr in Hrun. split; [exact Hrun|]. split; reflexivity.
Qed.

(** X10: a cycle logs one diagnostic per failed category, in the order of
    the categories, each under the name of the category at the index of
    its error, and changes nothing else of the world but the readings of
    the clock that the requests took. *)
Theorem cycle_logs_each_failure_under_its_category
        (classify : list string) (videoUrlTemplate : string) (includeShorts : bool)
        (w : World) (responses : list bilibiliFeedResponseJson)
        (errs : list (option error)) :
  poolOutcome classify w = Some (responses, errs, None) ->
  exists result w',
    fetchBilibiliClassifyUploads classify videoUrlTemplate includeShorts w
    = Returned result w' /\
    logged w' = logged w ++ diagnostics classify errs /\
    Z.of_nat (List.length (diagnostics classify errs)) = failures errs /\
    clock w' = clock w /\ taskOutcome w' = taskOutcome w /\ poolError w' = poolError w /\
    reads w' = (readsOfAll classify + reads w)%nat.
Proof.
  intros Hpool.
  destruct (fetch_exact classify videoUrlTemplate includeShorts w)
    as (responses' & errs' & Hpool' & _ & Hle & Hrun).
  rewrite Hpool in Hpool'. injection Hpool' as Hr He Hp. subst responses' errs'.
  rewrite <- Hp in Hrun.
  do 2 eexists. split; [exact Hrun|].
  split; [reflexivity|].
  split; [apply diagnostics_length; now rewrite Hle|].
  repeat split.
Qed.

(** X11: a cycle neither drops nor truncates nor invents a video: it
    returns as many videos as the categories without error have
    entries, and each one is built from one of these entries: picture,
    title, author, views and danmaku copied, the video address from the
    bvid, the author's address from the mid, and no description. *)
Theorem returned_videos_come_from_the_entries
        (classify : list string) (videoUrlTemplate : string) (includeShorts : bool)
        (w w' : World) (responses : list bilibiliFeedResponseJson)
        (errs : list (option error)) (videos : bilibiliVideoList) (err : option error) :
  poolOutcome classify w = Some (responses, errs, None) ->
  fetchBilibiliClassifyUploads classify videoUrlTemplate includeShorts w
  = Returned (videos, err) w' ->
  List.length videos = List.length (mergedEntries responses errs) /\
  forall v, In v videos ->
    exists entry,
      In entry (mergedEntries responses errs) /\
      v = {| ThumbnailUrl := Json.Pic entry;
             Title := Json.Title entry;
             Url := ("https://www.bilibili.com/video/" ++ Json.Bvid entry)%string;
             Author := Json.Name (Json.Owner entry);
             AuthorUrl := ("https://space.bilibili.com/"
                             ++ formatInt (Json.Mid (Json.Owner entry)))%string;
             Views := Json.View (Json.Stats entry);
             Danmaku := Json.Danmaku (Json.Stats entry);
             Desc := "" |}.
Proof.
  intros Hpool Hfetch.
  destruct (fetch_exact classify videoUrlTemplate includeShorts w)
    as (responses' & errs' & Hpool' & _ & _ & Hrun).
  rewrite Hpool in Hpool'. injection Hpool' as Hr He Hp. subst responses' errs'.
  rewrite <- Hp, Hfetch in Hrun.
  assert (Hperm : Permutation (map recordOf (mergedEntries responses errs)) videos).
  { rewrite <- mergedRecords_entries.
    destruct (mergedRecords responses errs) as [|v vs] eqn:Hm;
      injection Hrun as Hv _ _; subst videos;
      [constructor | apply sortByView_permutes]. }
  split.
  - rewrite <- (Permutation_length Hperm). apply length_map.
  - intros v Hin. apply (Permutation_in _ (Permutation_sym Hperm)) in Hin.
    apply in_map_iff in Hin. destruct Hin as (entry & Hv & Hentry).
    exists entry. split; [exact Hentry|]. subst v.
    unfold recordOf. cbn [Sprintf Ascii.eqb Bool.eqb formatArg append].
    rewrite !append_empty_r. reflexivity.
Qed.

(** X12: with no category at all, a cycle sends no request, reads no
    clock and logs nothing, and it is Empty. *)
Theorem no_category_is_an_empty_cycle
        (videoUrlTemplate : string) (includeShorts : bool) (w : World) :
  fetchBilibiliClassifyUploads [] videoUrlTemplate includeShorts w
  = Returned ([], Some match poolError w with
                       | Some e => fmt_Errorf "%w: %v" errNoContent (OperandErr e)
                       | None => errNoContent
                       end) w.
Proof.
  unfold fetchBilibiliClassifyUploads, bind, workerPoolDo, ret.
  cbn [buildRequests runTasks collectResponses ret].
  destruct (poolError w); reflexivity.
Qed.
End CycleOutcomes.

(* ================================================================== *)
(** * Further properties: the refresh *)

Section FurtherRefresh.
Context {sorter : SliceSort}.

(** One refresh on a widget whose limit is not negative: it returns, in
    the world its cycle leaves, a widget with the same configuration
    whose videos are the stored ones or the first [Limit] of the
    cycle's. *)
Lemma update_shape (ctx : unit) (widget : videosBilibiliWidget) (w : World) :
  0 <= Limit widget ->
  exists videos err w' widget',
    fetchBilibiliClassifyUploads (Classify widget) (VideoUrlTemplate widget)
                                 (IncludeShorts widget) w
    = Returned (videos, err) w' /\
    sortedByViews videos /\
    update ctx widget w = Returned widget' w' /\
    sameConfiguration widget widget' /\
    (Videos widget' = Videos widget
     \/ Videos widget' = firstn (Z.to_nat (Limit widget)) videos).
Proof.
  intros Hlimit.
  destruct (every_cycle_is_empty_complete_or_partial_lemma
              (Classify widget) (VideoUrlTemplate widget) (IncludeShorts widget) w)
    as (videos & err & w' & Hfetch & Hsorted & _).
  exists videos, err, w'.
  rewrite (update_run ctx widget w w' videos err Hfetch).
  destruct (Base.canContinueUpdateAfterHandlingErr err (widgetBase widget)) as [base continue].
  destruct continue; cbn [negb].
  - destruct (Z.of_nat (List.length videos) >? Limit widget) eqn:Hcmp.
    + apply Z.gtb_lt in Hcmp. unfold slice_to.
      replace ((0 <=? Limit widget) && (Limit widget <=? Z.of_nat (List.length videos)))
        with true
        by (symmetry; apply andb_true_iff; split; apply Z.leb_le; lia).
      eexists. split; [exact Hfetch|]. split; [exact Hsorted|].
      split; [reflexivity|]. split; [repeat split|]. right. reflexivity.
    + rewrite Z.gtb_ltb in Hcmp. apply Z.ltb_ge in Hcmp.
      eexists. split; [exact Hfetch|]. split; [exact Hsorted|].
      split; [reflexivity|]. split; [repeat split|]. right.
      cbn [setVideos Videos]. symmetry. apply firstn_all2. lia.
  - eexists. split; [exact Hfetch|]. split; [exact Hsorted|].
    split; [reflexivity|]. split; [repeat split|]. left. reflexivity.
Qed.

(** X13: on a widget whose limit is not negative, a refresh never panics,
    in any world, and changes nothing of the configuration: categories,
    limit, thresholds, style, template and flag. *)
Theorem update_returns_and_keeps_the_configuration
        (ctx : unit) (widget : videosBilibiliWidget) (w : World) :
  0 <= Limit widget ->
  exists widget' w',
    update ctx widget w = Returned widget' w' /\ sameConfiguration widget widget'.
Proof.
  intros Hlimit.
  destruct (update_shape ctx widget w Hlimit)
    as (videos & err & w' & widget' & _ & _ & Hupdate & Hsame & _).
  exists widget', w'. split; assumption.
Qed.

(** X14: a refresh keeps the stored videos ranked by views and within the
    limit: if they are so before, they are so after, whatever the cycle
    brought. *)
Theorem update_keeps_videos_ranked_and_limited
        (ctx : unit) (widget widget' : videosBilibiliWidget) (w w' : World) :
  0 <= Limit widget ->
  sortedByViews (Videos widget) ->
  Z.of_nat (List.length (Videos widget)) <= Limit widget ->
  update ctx widget w = Returned widget' w' ->
  sortedByViews (Videos widget') /\
  Z.of_nat (List.length (Videos widget')) <= Limit widget'.
Proof.
  intros Hlimit Hsorted Hlength Hupdate.
  destruct (update_shape ctx widget w Hlimit)
    as (videos & err & w1 & widget1 & _ & Hranked & Hupdate1 & Hsame & Hvideos).
  rewrite Hupdate in Hupdate1. injection Hupdate1 as Hw Hworld. subst widget1 w1.
  destruct Hsame as (_ & _ & _ & _ & _ & Hsamelimit & _). rewrite <- Hsamelimit.
  destruct Hvideos as [Hkept|Hnew]; rewrite ?Hkept, ?Hnew.
  - split; assumption.
  - split; [now apply StronglySorted_firstn|]. rewrite length_firstn. lia.
Qed.


(** After a Partial cycle, a refresh on a widget whose limit is not
    negative replaces the stored videos by the first [Limit] of the
    cycle's and keeps the error as the widget's notice, with no error
    (with [canContinueUpdateAfterHandlingErr] as modelled above). *)
Lemma partial_cycle_replaces_stored_videos
        (ctx : unit) (widget : videosBilibiliWidget) (w : World)
        (responses : list bilibiliFeedResponseJson) (errs : list (option error)) :
  poolOutcome (Classify widget) w = Some (responses, errs, None) ->
  mergedRecords responses errs <> [] ->
  0 < failures errs ->
  0 <= Limit widget ->
  exists videos w' widget',
    fetchBilibiliClassifyUploads (Classify widget) (VideoUrlTemplate widget)
                                 (IncludeShorts widget) w
    = Returned (videos, Some (partialContent (failures errs))) w' /\
    update ctx widget w = Returned widget' w' /\
    Videos widget' = firstn (Z.to_nat (Limit widget)) videos /\
    Base.Notice (widgetBase widget') = Some (partialContent (failures errs)) /\
    Base.Error (widgetBase widget') = None.
Proof.
  intros Hpool Hsome Hfailed Hlimit.
  destruct (fetch_run (Classify widget) (VideoUrlTemplate widget) (IncludeShorts widget)
                      w _ _ _ Hpool) as (w' & Hrun).
  destruct (mergedRecords responses errs) as [|v vs] eqn:Hm; [now elim Hsome|].
  replace (failures errs >? 0) with true in Hrun by (symmetry; apply Z.gtb_lt; lia).
  set (videos := sortByView (v :: vs)) in *.
  exists videos, w'.
  rewrite (update_run ctx widget w w' videos _ Hrun).
  cbn [Base.canContinueUpdateAfterHandlingErr]. rewrite errors_Is_partialContent.
  cbn [negb].
  destruct (Z.of_nat (List.length videos) >? Limit widget) eqn:Hcmp.
  - apply Z.gtb_lt in Hcmp. unfold slice_to.
    replace ((0 <=? Limit widget) && (Limit widget <=? Z.of_nat (List.length videos)))
      with true
      by (symmetry; apply andb_true_iff; split; apply Z.leb_le; lia).
    eexists. split; [exact Hrun|]. split; [reflexivity|]. repeat split.
  - rewrite Z.gtb_ltb in Hcmp. apply Z.ltb_ge in Hcmp.
    eexists. split; [exact Hrun|]. split; [reflexivity|].
    split; [|split; reflexivity].
    cbn [setVideos Videos]. symmetry. apply firstn_all2. lia.
Qed.
End FurtherRefresh.

(* ================================================================== *)
(** * Further properties: the sorts *)

Section Sorts.
Context {sorter : SliceSort}.

(** X16: [sortByView] keeps every video, each as often as it occurs, and
    ranks them by views, descending, so that no video has more views
    than the first one; this holds for any [sort.Slice] that meets its
    contract, the comparison of views being a strict weak ordering. *)
Theorem sortByView_ranks_all_videos (v : bilibiliVideoList) :
  Permutation v (sortByView v) /\
  List.length (sortByView v) = List.length v /\
  sortedByViews (sortByView v) /\
  forall first rest x,
    sortByView v = first :: rest -> In x v -> Views x <= Views first.
Proof.
  pose proof (sortByView_permutes v) as Hperm.
  pose proof (sortByView_sorted v) as Hsorted.
  split; [exact Hperm|].
  split; [symmetry; apply (Permutation_length Hperm)|].
  split; [exact Hsorted|].
  intros first rest x Hshape Hin.
  apply (Permutation_in _ Hperm) in Hin.
  rewrite Hshape in Hin, Hsorted.
  apply StronglySorted_inv in Hsorted. destruct Hsorted as [_ Hfirst].
  destruct Hin as [Heq|Hin]; [subst x; lia|].
  rewrite Forall_forall in Hfirst. now apply Hfirst.
Qed.

Lemma newestOrdering :
  lessOrdering (fun a b : WidgetVideosBilibili.video =>
                  After (WidgetVideosBilibili.TimePosted a) (WidgetVideosBilibili.TimePosted b)).
Proof.
  unfold After. split; intros *; rewrite ?Z.gtb_ltb, ?Z.ltb_lt, ?Z.ltb_ge; lia.
Qed.

(** X17: [sortByNewest], of the other version of the file, keeps every
    video and puts the newest first. *)
Theorem sortByNewest_ranks_all_videos (v : WidgetVideosBilibili.bilibiliVideoList) :
  Permutation v (WidgetVideosBilibili.sortByNewest v) /\
  sortedByNewest (WidgetVideosBilibili.sortByNewest v).
Proof.
  split; [apply sort_Slice_permutes|].
  pose proof (sort_Slice_sorts _ v _ newestOrdering) as H.
  unfold sortedByNewest, WidgetVideosBilibili.sortByNewest, sortedFor, After in *.
  induction H as [|a l Hl IH Ha]; constructor.
  - exact IH.
  - rewrite Forall_forall in *. intros b Hb.
    specialize (Ha b Hb). rewrite Z.gtb_ltb, Z.ltb_ge in Ha. exact Ha.
Qed.
End Sorts.

(* ================================================================== *)
(** * Further properties: the other version of the fetch *)

Lemma other_buildRequests_exact (classify : list string) :
  forall requests w,
  exists more,
    WidgetVideosBilibili.buildRequests classify requests w
    = Returned (requests ++ more) (advance (readsOfAll classify) w) /\
    List.length more = List.length classify.
Proof.
  induction classify as [|c rest IH]; intros requests w.
  - exists []. split; [|reflexivity].
    cbn [WidgetVideosBilibili.buildRequests readsOfAll]. rewrite app_nil_r.
    unfold ret, advance. now destruct w.
  - destruct (getBilibiliFeedURL_advances c w) as (url & Hurl).
    cbn [WidgetVideosBilibili.buildRequests readsOfAll].
    rewrite (bind_Returned _ _ _ _ _ Hurl).
    match goal with
    | |- context [WidgetVideosBilibili.buildRequests rest (requests ++ [?r])] =>
        destruct (IH (requests ++ [r]) (advance (readsOf c) w)) as (more & Hrun & Hlen);
        exists (r :: more)
    end.
    rewrite Hrun, <- app_assoc, advance_advance. split; [reflexivity|].
    simpl. now rewrite Hlen.
Qed.

Lemma postedFrom_same_clock (w w' : World) (entry : Json.entry)
      (v : WidgetVideosBilibili.video) :
  clock w' = clock w -> postedFrom w' entry v -> postedFrom w entry v.
Proof.
  unfold postedFrom. intros Hclock (a & b & c & d & e & n & Hn).
  repeat split; try assumption. exists n. now rewrite <- Hclock.
Qed.

Lemma other_appendEntries_run (entries : list Json.entry) :
  forall videos w,
  exists more,
    WidgetVideosBilibili.appendEntries videos entries w
    = Returned (videos ++ more) (advance (List.length entries) w) /\
    Forall2 (postedFrom w) entries more.
Proof.
  induction entries as [|entry rest IH]; intros videos w.
  - exists []. split; [|constructor].
    cbn [WidgetVideosBilibili.appendEntries List.length]. rewrite app_nil_r.
    unfold ret, advance. now destruct w.
  - cbn [WidgetVideosBilibili.appendEntries List.length].
    unfold bind at 1. unfold time_Now.
    match goal with
    | |- context [WidgetVideosBilibili.appendEntries (videos ++ [?v]) rest ?w1] =>
        destruct (IH (videos ++ [v]) w1) as (more & Hrun & Hall);
        exists (v :: more); rewrite Hrun
    end.
    split.
    + rewrite <- app_assoc. unfold advance. cbn [clock reads taskOutcome poolError logged].
      rewrite Nat.add_succ_r. reflexivity.
    + constructor.
      * unfold postedFrom, recordOf.
        cbn [WidgetVideosBilibili.ThumbnailUrl WidgetVideosBilibili.Title
             WidgetVideosBilibili.Url WidgetVideosBilibili.Author
             WidgetVideosBilibili.AuthorUrl WidgetVideosBilibili.TimePosted Url AuthorUrl].
        do 5 (split; [exact eq_refl|]). exists (reads w). exact eq_refl.
      * eapply Forall2_impl; [|exact Hall].
        intros entry' v'. apply postedFrom_same_clock. reflexivity.
Qed.

Lemma other_collectResponses_run (rest : list bilibiliFeedResponseJson) :
  forall (erest : list (option error)) (crest : list string)
         (edone : list (option error)) (cdone : list string)
         (videos : WidgetVideosBilibili.bilibiliVideoList) (failed : Z) (w : World),
    List.length edone = List.length cdone ->
    List.length erest = List.length rest ->
    List.length crest = List.length rest ->
    exists more w',
      WidgetVideosBilibili.collectResponses (cdone ++ crest) (edone ++ erest) rest
                                            (List.length edone) videos failed w
      = Returned (videos ++ more, failed + failures erest) w' /\
      Forall2 (postedFrom w) (mergedEntries rest erest) more /\
      clock w' = clock w.
Proof.
  induction rest as [|response rest' IH];
    intros erest crest edone cdone videos failed w Hdone He Hc.
  - destruct erest; [|discriminate]. exists [], w.
    cbn [WidgetVideosBilibili.collectResponses failures mergedEntries].
    rewrite app_nil_r, Z.add_0_r. repeat split. constructor.
  - destruct erest as [|e erest']; [discriminate|].
    destruct crest as [|c crest']; [discriminate|].
    simpl in He, Hc. injection He as He. injection Hc as Hc.
    cbn [WidgetVideosBilibili.collectResponses].
    rewrite (bind_Returned _ _ _ _ _ (index_app_here edone erest' e w)).
    assert (Hshift : forall (X : Type) (l : list X) (x : X) (l' : list X),
               l ++ x :: l' = (l ++ [x]) ++ l')
      by (intros; now rewrite <- app_assoc).
    assert (Hnext : S (List.length edone) = List.length (edone ++ [e]))
      by (rewrite length_app; simpl; lia).
    destruct e as [e|].
    + pose proof (index_app_here cdone crest' c w) as Hcategory.
      rewrite <- Hdone in Hcategory.
      rewrite (bind_Returned _ _ _ _ _ Hcategory).
      unfold bind at 1. unfold slog_Error.
      rewrite (Hshift _ edone), (Hshift _ cdone), Hnext.
      match goal with
      | |- context [WidgetVideosBilibili.collectResponses _ _ rest' _ videos _ ?w1] =>
          destruct (IH erest' crest' (edone ++ [Some e]) (cdone ++ [c]) videos (failed + 1) w1)
            as (more & w' & Hrun & Hall & Hclock);
          [rewrite !length_app; simpl; lia | exact He | exact Hc |]
      end.
      exists more, w'. rewrite Hrun. cbn [failures mergedEntries].
      split; [f_equal; f_equal; lia|]. split; [|exact Hclock].
      eapply Forall2_impl; [|exact Hall].
      intros entry v. apply postedFrom_same_clock. reflexivity.
    + destruct (other_appendEntries_run (Json.List (Data response)) videos w)
        as (more1 & Happend & Hall1).
      rewrite (bind_Returned _ _ _ _ _ Happend).
      rewrite (Hshift _ edone), (Hshift _ cdone), Hnext.
      destruct (IH erest' crest' (edone ++ [None]) (cdone ++ [c]) (videos ++ more1) failed
                   (advance (List.length (Json.List (Data response))) w))
        as (more & w' & Hrun & Hall & Hclock);
        [rewrite !length_app; simpl; lia | exact He | exact Hc |].
      exists (more1 ++ more), w'. rewrite Hrun. cbn [failures mergedEntries].
      split; [now rewrite app_assoc|]. split; [|exact Hclock].
      apply Forall2_app; [exact Hall1|].
      eapply Forall2_impl; [|exact Hall].
      intros entry v. apply postedFrom_same_clock. reflexivity.
Qed.

(** X18: the other version of the fetch does not rank: it returns one
    record per entry of the categories without error, in the order of
    the categories and of their entries, each with a reading of the
    clock as its time, and the same three outcomes. *)
Theorem other_version_keeps_the_order_of_the_payloads
        (classify : list string) (videoUrlTemplate : string) (includeShorts : bool)
        (w : World) (responses : list bilibiliFeedResponseJson)
        (errs : list (option error)) :
  otherPoolOutcome classify w = Some (responses, errs, None) ->
  exists videos w',
    WidgetVideosBilibili.fetchBilibiliClassifyUploads classify videoUrlTemplate
                                                      includeShorts w
    = Returned (videos,
                match mergedEntries responses errs with
                | [] => Some errNoContent
                | _ :: _ =>
                    if failures errs >? 0 then Some (partialContent (failures errs)) else None
                end) w' /\
    Forall2 (postedFrom w) (mergedEntries responses errs) videos.
Proof.
  intros Hpool.
  destruct (other_buildRequests_exact classify [] w) as (requests & Hreq & Hlen).
  cbn [app] in Hreq.
  unfold otherPoolOutcome in Hpool.
  rewrite (bind_Returned _ _ _ _ _ Hreq) in Hpool. unfold workerPoolDo in Hpool.
  change (taskOutcome (advance (readsOfAll classify) w)) with (taskOutcome w) in Hpool.
  change (poolError (advance (readsOfAll classify) w)) with (poolError w) in Hpool.
  injection Hpool as Htasks Hperr.
  destruct (runTasks_lengths _ _ _ _ _ Htasks) as [Hlr Hle].
  rewrite Hlen in Hlr, Hle.
  unfold WidgetVideosBilibili.fetchBilibiliClassifyUploads.
  rewrite (bind_Returned _ _ _ _ _ Hreq).
  unfold bind at 1. unfold workerPoolDo.
  change (taskOutcome (advance (readsOfAll classify) w)) with (taskOutcome w).
  change (poolError (advance (readsOfAll classify) w)) with (poolError w).
  rewrite Htasks, Hperr.
  destruct (other_collectResponses_run responses errs classify [] [] [] 0
                                       (advance (readsOfAll classify) w)
                                       eq_refl (eq_trans Hle (eq_sym Hlr)) (eq_sym Hlr))
    as (videos & w' & Hrun & Hall & _).
  cbn [app List.length] in Hrun.
  rewrite (bind_Returned _ _ _ _ _ Hrun).
  rewrite length_zero_iff.
  assert (Hall' : Forall2 (postedFrom w) (mergedEntries responses errs) videos).
  { eapply Forall2_impl; [|exact Hall].
    intros entry v. apply postedFrom_same_clock. reflexivity. }
  destruct videos as [|v vs].
  - inversion Hall' as [Hentries Hx|]. exists [], w'. split; [reflexivity|constructor].
  - inversion Hall' as [|entry v' entries vs' Hv Hvs Hentries Hx]. subst v' vs'.
    exists (v :: vs), w'. replace (0 + failures errs) with (failures errs) by lia.
    split; [|rewrite Hentries; exact Hall'].
    destruct (failures errs >? 0); reflexivity.
Qed.

Lemma other_version_keeps_the_order_of_the_payloads_witness :
  exists videos w',
    WidgetVideosBilibili.fetchBilibiliClassifyUploads ["all"] "" false (worldWith allNamed)
    = Returned (videos, None) w' /\
    Forall2 (postedFrom (worldWith allNamed))
            [entryNamed "BV1" 100; entryNamed "BV2" 5; entryNamed "BV3" 300] videos.
Proof.
  apply (other_version_keeps_the_order_of_the_payloads
           ["all"] "" false (worldWith allNamed)
           [mkResponse (Json.mkData [entryNamed "BV1" 100; entryNamed "BV2" 5;
                                     entryNamed "BV3" 300])]
           [None]).
  reflexivity.
Defined.

(* ================================================================== *)
(** * Further properties: instances *)

Lemma pool_error_discards_the_cycle_witness :
  fetchBilibiliClassifyUploads
    ["all"; "weekly"] "" false
    (mkWorld sampleClock 0 allSucceed (Some (errorString "context canceled")) [])
  = Returned ([], Some (fmt_Errorf "%w: %v" errNoContent
                                   (OperandErr (errorString "context canceled"))))
             (mkWorld sampleClock 3 allSucceed (Some (errorString "context canceled")) []) /\
  errors_Is (fmt_Errorf "%w: %v" errNoContent (OperandErr (errorString "context canceled")))
            errNoContent = true /\
  @nil logRecord = [].
Proof.
  apply (pool_error_discards_the_cycle
           ["all"; "weekly"] "" false
           (mkWorld sampleClock 0 allSucceed (Some (errorString "context canceled")) [])
           (errorString "context canceled")).
  reflexivity.
Defined.

Lemma cycle_logs_each_failure_under_its_category_witness :
  exists result w',
    fetchBilibiliClassifyUploads ["all"; "history"; "weekly"] "" false (worldWith firstOnly)
    = Returned result w' /\
    logged w' = [] ++ [mkLog "Failed to fetch bilibi" "weekly" (errorString "timeout")] /\
    Z.of_nat 1 = 1 /\
    clock w' = sampleClock /\ taskOutcome w' = firstOnly /\ poolError w' = None /\
    reads w' = 4%nat.
Proof.
  apply (cycle_logs_each_failure_under_its_category
           ["all"; "history"; "weekly"] "" false (worldWith firstOnly)
           [sampleResponse; emptyResponse; emptyResponse]
           [None; None; Some (errorString "timeout")]).
  reflexivity.
Defined.

Lemma returned_videos_come_from_the_entries_witness :
  List.length [recordOf (sampleEntry 300); recordOf (sampleEntry 100); recordOf (sampleEntry 5)]
  = List.length [sampleEntry 100; sampleEntry 5; sampleEntry 300] /\
  forall v,
    In v [recordOf (sampleEntry 300); recordOf (sampleEntry 100); recordOf (sampleEntry 5)] ->
    exists entry,
      In entry [sampleEntry 100; sampleEntry 5; sampleEntry 300] /\
      v = {| ThumbnailUrl := Json.Pic entry;
             Title := Json.Title entry;
             Url := ("https://www.bilibili.com/video/" ++ Json.Bvid entry)%string;
             Author := Json.Name (Json.Owner entry);
             AuthorUrl := ("https://space.bilibili.com/"
                             ++ formatInt (Json.Mid (Json.Owner entry)))%string;
             Views := Json.View (Json.Stats entry);
             Danmaku := Json.Danmaku (Json.Stats entry);
             Desc := "" |}.
Proof.
  apply (returned_videos_come_from_the_entries
           ["all"; "history"; "weekly"] "" false (worldWith firstOnly)
           (mkWorld sampleClock 4 firstOnly None
                    [mkLog "Failed to fetch bilibi" "weekly" (errorString "timeout")])
           [sampleResponse; emptyResponse; emptyResponse]
           [None; None; Some (errorString "timeout")]
           [recordOf (sampleEntry 300); recordOf (sampleEntry 100); recordOf (sampleEntry 5)]
           (Some (partialContent 1))).
  - reflexivity.
  - reflexivity.
Defined.

Lemma update_returns_and_keeps_the_configuration_witness :
  exists widget' w',
    update tt (sampleWidget ["all"] 2) (worldWith allSucceed) = Returned widget' w' /\
    sameConfiguration (sampleWidget ["all"] 2) widget'.
Proof.
  apply (update_returns_and_keeps_the_configuration
           tt (sampleWidget ["all"] 2) (worldWith allSucceed)).
  simpl. lia.
Defined.

Lemma update_keeps_videos_ranked_and_limited_witness :
  sortedByViews [recordOf (sampleEntry 300); recordOf (sampleEntry 100)] /\
  Z.of_nat (List.length [recordOf (sampleEntry 300); recordOf (sampleEntry 100)]) <= 2.
Proof.
  apply (update_keeps_videos_ranked_and_limited
           tt (sampleWidget ["all"] 2)
           (setVideos [recordOf (sampleEntry 300); recordOf (sampleEntry 100)]
                      (sampleWidget ["all"] 2))
           (worldWith allSucceed) (mkWorld sampleClock 1 allSucceed None [])).
  - simpl. lia.
  - repeat constructor.
  - simpl. lia.
  - reflexivity.
Defined.

Lemma partial_cycle_replaces_stored_videos_witness :
  exists videos w' widget',
    fetchBilibiliClassifyUploads ["all"; "history"; "weekly"] "" false (worldWith firstOnly)
    = Returned (videos, Some (partialContent 1)) w' /\
    update tt (sampleWidget ["all"; "history"; "weekly"] 2) (worldWith firstOnly)
    = Returned widget' w' /\
    Videos widget' = firstn 2 videos /\
    Base.Notice (widgetBase widget') = Some (partialContent 1) /\
    Base.Error (widgetBase widget') = None.
Proof.
  apply (partial_cycle_replaces_stored_videos
           tt (sampleWidget ["all"; "history"; "weekly"] 2) (worldWith firstOnly)
           [sampleResponse; emptyResponse; emptyResponse]
           [None; None; Some (errorString "timeout")]).
  - reflexivity.
  - discriminate.
  - simpl. lia.
  - simpl. lia.
Defined.
